(** * davislib.models: data containers and CAS-protected applications

    A shallow embedding of [davislib/models.py].

    - Python values that the module only stores and compares are [atom]s
      (None, bool, int, str) or references into an object store.
    - Instances of [Application] and its subclasses live in a store of
      objects with dynamic attribute dictionaries; [requests.Session]
      objects live in a second store, so that two applications holding
      the same session reference alias one cookie jar.
    - Methods with effects are computations in a state-and-exception
      monad [M]; a Python exception leaves the state as it was when the
      exception was raised.
    - The network and the HTML parser are external collaborators and are
      parameters of the development. *)

From Stdlib Require Import Ascii.
From stdpp Require Import gmap strings list pretty.

Open Scope string_scope.
Open Scope list_scope.

(** ** Python values *)

Inductive atom :=
| ANone
| ABool (b : bool)
| AInt (z : Z)
| AStr (s : string).

(** [str(x)] *)
Definition py_str (a : atom) : string :=
  match a with
  | ANone => "None"
  | ABool true => "True"
  | ABool false => "False"
  | AInt z => pretty z
  | AStr s => s
  end.

(** Truth value testing, as in [if x:]. *)
Definition atom_truthy (a : atom) : bool :=
  match a with
  | ANone => false
  | ABool b => b
  | AInt z => negb (Z.eqb z 0)
  | AStr s => negb (String.eqb s EmptyString)
  end.

(** [bool] is a subclass of [int]: [True == 1]. *)
Definition atom_num (a : atom) : option Z :=
  match a with
  | ABool true => Some 1%Z
  | ABool false => Some 0%Z
  | AInt z => Some z
  | _ => None
  end.

(** [x == y] on atoms. *)
Definition py_eq (a b : atom) : bool :=
  match a, b with
  | ANone, ANone => true
  | AStr s, AStr t => String.eqb s t
  | _, _ =>
      match atom_num a, atom_num b with
      | Some x, Some y => Z.eqb x y
      | _, _ => false
      end
  end.

(** *** [repr(x)]

    Strings are ASCII text. [repr] of a string takes single quotes,
    unless the string has a single quote and no double quote; it
    escapes the backslash, the chosen quote, tab, newline and carriage
    return, and writes the other control characters as [\xNN]. *)

Fixpoint has_char (c : ascii) (s : string) : bool :=
  match s with
  | EmptyString => false
  | String d rest => Ascii.eqb d c || has_char c rest
  end.

Definition hex_digit (n : nat) : ascii :=
  ascii_of_nat (if (n <? 10)%nat then 48 + n else 87 + n).

Definition single (c : ascii) : string := String c EmptyString.

Definition escape_char (quote c : ascii) : string :=
  let n := nat_of_ascii c in
  if Ascii.eqb c quote || Ascii.eqb c "\"%char then String "\"%char (single c)
  else if (n =? 9)%nat then "\t"
  else if (n =? 10)%nat then "\n"
  else if (n =? 13)%nat then "\r"
  else if (n <? 32)%nat || (n =? 127)%nat then
    String "\"%char
      (String "x"%char
         (String (hex_digit (n / 16)) (single (hex_digit (n mod 16)))))
  else single c.

Fixpoint escape (quote : ascii) (s : string) : string :=
  match s with
  | EmptyString => EmptyString
  | String c rest => escape_char quote c +:+ escape quote rest
  end.

Definition str_repr (s : string) : string :=
  let double := ascii_of_nat 34 in
  let quote :=
    if has_char "'"%char s && negb (has_char double s) then double
    else "'"%char in
  String quote (escape quote s +:+ single quote).

Definition py_repr (a : atom) : string :=
  match a with
  | AStr s => str_repr s
  | _ => py_str a
  end.

(** Exceptions raised by the module or by the Python runtime under it. *)
Inductive exn :=
| ValueError (msg : string)
| AttributeError (name : string)
| KeyError (key : string)
| IndexError
| InvalidLoginError
| TransportError (msg : string).

Inductive result (A : Type) :=
| Ok (a : A)
| Raise (e : exn).
Arguments Ok {A} a.
Arguments Raise {A} e.

(** ** [str.format] for the templates used in this module

    Replacement fields are [{}] (automatic numbering) or [{N}] with a
    decimal index; every argument is rendered with [str]. Brace escapes
    and format specifications are not used by the module and are
    rejected. *)

Inductive fmt_state :=
| FLit
| FField (idx : option nat).

Definition digit_of (c : Ascii.ascii) : option nat :=
  let n := Ascii.nat_of_ascii c in
  if (48 <=? n)%nat && (n <=? 57)%nat then Some (n - 48) else None.

Fixpoint format_from (st : fmt_state) (tpl : string) (args : list string)
    (auto : nat) : option string :=
  match tpl with
  | EmptyString => match st with FLit => Some EmptyString | FField _ => None end
  | String c rest =>
      match st with
      | FLit =>
          if Ascii.eqb c "{"%char then format_from (FField None) rest args auto
          else if Ascii.eqb c "}"%char then None
          else String c <$> format_from FLit rest args auto
      | FField idx =>
          if Ascii.eqb c "}"%char then
            match idx with
            | None =>
                a ← args !! auto;
                r ← format_from FLit rest args (S auto);
                Some (a +:+ r)
            | Some i =>
                a ← args !! i;
                r ← format_from FLit rest args auto;
                Some (a +:+ r)
            end
          else
            match digit_of c with
            | Some d =>
                format_from (FField (Some (10 * default 0 idx + d))) rest args auto
            | None => None
            end
      end
  end.

Definition str_format (tpl : string) (args : list atom) : result string :=
  match format_from FLit tpl (py_str <$> args) 0 with
  | Some s => Ok s
  | None => Raise IndexError
  end.

(** ** [str.replace] and [str.title] on ASCII text *)

Definition is_upper (c : ascii) : bool :=
  let n := nat_of_ascii c in (65 <=? n)%nat && (n <=? 90)%nat.

Definition is_lower (c : ascii) : bool :=
  let n := nat_of_ascii c in (97 <=? n)%nat && (n <=? 122)%nat.

Definition to_upper (c : ascii) : ascii :=
  if is_lower c then ascii_of_nat (nat_of_ascii c - 32) else c.

Definition to_lower (c : ascii) : ascii :=
  if is_upper c then ascii_of_nat (nat_of_ascii c + 32) else c.

(** [s.replace(a, b)] for one-character [a] and [b]. *)
Fixpoint replace_char (a b : ascii) (s : string) : string :=
  match s with
  | EmptyString => EmptyString
  | String c rest =>
      String (if Ascii.eqb c a then b else c) (replace_char a b rest)
  end.

(** [s.title()]: a letter is upper-cased when it follows a character
    without case (or starts the string) and lower-cased when it follows
    a letter. *)
Fixpoint title_from (after_cased : bool) (s : string) : string :=
  match s with
  | EmptyString => EmptyString
  | String c rest =>
      if is_upper c || is_lower c then
        String (if after_cased then to_lower c else to_upper c)
               (title_from true rest)
      else String c (title_from false rest)
  end.

Definition title (s : string) : string := title_from false s.

(** ** Data containers *)

Module Term.

(** [class Session(Enum)] *)
Inductive Session :=
| FALL_QUARTER
| FALL_SEMESTER
| SUMMER_SESSION_2
| SUMMER_SPECIAL
| SUMMER_SESSION_1
| SPRING_QUARTER
| SPRING_SEMESTER
| WINTER_QUARTER.

#[global] Instance Session_eq_dec : EqDecision Session.
Proof. solve_decision. Defined.

Definition value (m : Session) : string :=
  match m with
  | FALL_QUARTER => "10"
  | FALL_SEMESTER => "09"
  | SUMMER_SESSION_2 => "07"
  | SUMMER_SPECIAL => "06"
  | SUMMER_SESSION_1 => "05"
  | SPRING_QUARTER => "03"
  | SPRING_SEMESTER => "02"
  | WINTER_QUARTER => "01"
  end.

(** [cls.__members__.values()], in definition order. *)
Definition members : list Session :=
  [FALL_QUARTER; FALL_SEMESTER; SUMMER_SESSION_2; SUMMER_SPECIAL;
   SUMMER_SESSION_1; SPRING_QUARTER; SPRING_SEMESTER; WINTER_QUARTER].


(** What [Term.__init__] may receive as [session]: a member of the
    enumeration, or any other value to be looked up by value. *)
Inductive session_arg :=
| Member (m : Session)
| ByValue (a : atom).

(** The message of the enumeration's [ValueError]:
    ["%r is not a valid %s" % (value, cls.__qualname__)]. *)
Definition not_valid (a : atom) : exn :=
  ValueError (py_repr a +:+ " is not a valid Term.Session").

(** [Session(x)]: the enumeration's lookup by value. *)
Definition Session_call (x : session_arg) : result Session :=
  match x with
  | Member m => Ok m
  | ByValue (AStr s) =>
      match List.find (fun m => String.eqb (value m) s) members with
      | Some m => Ok m
      | None => Raise (not_valid (AStr s))
      end
  | ByValue a => Raise (not_valid a)
  end.

Record t := mk { year : atom; session : Session }.

(** [__init__] *)
Definition init (y : atom) (s : session_arg) : result t :=
  match Session_call s with
  | Ok m => Ok {| year := y; session := m |}
  | Raise e => Raise e
  end.

(** [code] property: ['{0}{1}'.format(self.year, self.session.value)] *)
Definition code (self : t) : result string :=
  str_format "{0}{1}" [year self; AStr (value (session self))].

(** [__eq__]: [str(self.year) == str(other.year) and
    self.session == other.session] *)
Definition eq (self other : t) : bool :=
  String.eqb (py_str (year self)) (py_str (year other))
  && bool_decide (session self = session other).

(** [_name_] of a member. *)
Definition name (m : Session) : string :=
  match m with
  | FALL_QUARTER => "FALL_QUARTER"
  | FALL_SEMESTER => "FALL_SEMESTER"
  | SUMMER_SESSION_2 => "SUMMER_SESSION_2"
  | SUMMER_SPECIAL => "SUMMER_SPECIAL"
  | SUMMER_SESSION_1 => "SUMMER_SESSION_1"
  | SPRING_QUARTER => "SPRING_QUARTER"
  | SPRING_SEMESTER => "SPRING_SEMESTER"
  | WINTER_QUARTER => "WINTER_QUARTER"
  end.

(** [Session.__str__]: [self._name_.replace('_', ' ').title()] *)
Definition Session_str (m : Session) : string :=
  title (replace_char "_" " " (name m)).

(** [__str__]: ['{0} {1}'.format(self.session, self.year)] *)
Definition str (self : t) : result string :=
  str_format "{0} {1}" [AStr (Session_str (session self)); year self].

(** [__repr__]: ['<Term {}>'.format(self.code)] *)
Definition repr (self : t) : result string :=
  match code self with
  | Ok c => str_format "<Term {}>" [AStr c]
  | Raise e => Raise e
  end.

End Term.

(** Attribute payloads of a course: scalars, lists (GE credits, unit
    ranges) and dictionaries (meetings). *)
#[local] Unset Elimination Schemes.
Inductive pyobj :=
| PAtom (a : atom)
| PList (l : list pyobj)
| PDict (d : list (string * pyobj)).
#[local] Set Elimination Schemes.

Module Course.

Record t := mk {
  crn : atom;
  term : Term.t;
  name : pyobj;
  number : pyobj;
  section : pyobj;
  title : pyobj;
  units : pyobj;
  instructor : pyobj;
  subject : pyobj;
  ge_credit : pyobj;
  available_seats : pyobj;
  max_enrollment : pyobj;
  meetings : pyobj;
  description : pyobj;
  final_exam : pyobj;
  drop_time : pyobj
}.

(** [attrs[k]] on the keyword dictionary. *)
Definition getitem (attrs : gmap string pyobj) (k : string) : result pyobj :=
  match attrs !! k with
  | Some v => Ok v
  | None => Raise (KeyError k)
  end.

Definition rbind {A B} (r : result A) (f : A -> result B) : result B :=
  match r with
  | Ok a => f a
  | Raise e => Raise e
  end.

(** [__init__(self, crn, term, **attrs)] *)
Definition init (crn0 : atom) (term0 : Term.t) (attrs : gmap string pyobj)
    : result t :=
  rbind (getitem attrs "name") (fun a1 =>
  rbind (getitem attrs "number") (fun a2 =>
  rbind (getitem attrs "section") (fun a3 =>
  rbind (getitem attrs "title") (fun a4 =>
  rbind (getitem attrs "units") (fun a5 =>
  rbind (getitem attrs "instructor") (fun a6 =>
  rbind (getitem attrs "subject") (fun a7 =>
  rbind (getitem attrs "ge_credit") (fun a8 =>
  rbind (getitem attrs "available_seats") (fun a9 =>
  rbind (getitem attrs "max_enrollment") (fun a10 =>
  rbind (getitem attrs "meetings") (fun a11 =>
  rbind (getitem attrs "description") (fun a12 =>
  rbind (getitem attrs "final_exam") (fun a13 =>
  rbind (getitem attrs "drop_time") (fun a14 =>
  Ok (mk crn0 term0 a1 a2 a3 a4 a5 a6 a7 a8 a9 a10 a11 a12 a13 a14))))))))))))))).

(** [__eq__]: [self.crn == other.crn and self.term == other.term] *)
Definition eq (self other : t) : bool :=
  py_eq (crn self) (crn other) && Term.eq (term self) (term other).

(** The class attribute [_attrs]. *)
Definition _attrs : list string :=
  ["name"; "number"; "section"; "title"; "units"; "instructor"; "subject";
   "ge_credit"; "available_seats"; "max_enrollment"; "meetings";
   "description"; "final_exam"; "drop_time"].

(** [k] is no key of the keyword dictionary. *)
Definition missing (attrs : gmap string pyobj) (k : string) : bool :=
  match attrs !! k with
  | Some _ => false
  | None => true
  end.

(** What an attribute of a course holds: a value that [__init__]
    stored, or what the class answers under the name ([ClassAttr]: the
    list [_attrs], a method, a slot of every object). *)
Inductive attribute :=
| AtomAttr (a : atom)
| TermAttr (x : Term.t)
| ObjAttr (o : pyobj)
| ClassAttr (k : string).

(** The names bound in the body of [class Course]. *)
Definition class_namespace : list string :=
  ["_attrs"; "__init__"; "__str__"; "__repr__"; "__eq__"].

(** The names that every instance answers through its class and
    [object] (CPython 3; [__getstate__] from 3.11). *)
Definition object_namespace : list string :=
  ["__class__"; "__dict__"; "__doc__"; "__module__"; "__weakref__";
   "__hash__"; "__ne__"; "__lt__"; "__le__"; "__gt__"; "__ge__"; "__new__";
   "__getattribute__"; "__setattr__"; "__delattr__"; "__dir__"; "__format__";
   "__reduce__"; "__reduce_ex__"; "__sizeof__"; "__init_subclass__";
   "__subclasshook__"; "__getstate__"].

(** [self.k]: first the attributes that [__init__] assigns, then the
    names of the class and of [object]. *)
Definition getattr (self : t) (k : string) : result attribute :=
  if String.eqb k "crn" then Ok (AtomAttr (crn self))
  else if String.eqb k "term" then Ok (TermAttr (term self))
  else if String.eqb k "name" then Ok (ObjAttr (name self))
  else if String.eqb k "number" then Ok (ObjAttr (number self))
  else if String.eqb k "section" then Ok (ObjAttr (section self))
  else if String.eqb k "title" then Ok (ObjAttr (title self))
  else if String.eqb k "units" then Ok (ObjAttr (units self))
  else if String.eqb k "instructor" then Ok (ObjAttr (instructor self))
  else if String.eqb k "subject" then Ok (ObjAttr (subject self))
  else if String.eqb k "ge_credit" then Ok (ObjAttr (ge_credit self))
  else if String.eqb k "available_seats" then Ok (ObjAttr (available_seats self))
  else if String.eqb k "max_enrollment" then Ok (ObjAttr (max_enrollment self))
  else if String.eqb k "meetings" then Ok (ObjAttr (meetings self))
  else if String.eqb k "description" then Ok (ObjAttr (description self))
  else if String.eqb k "final_exam" then Ok (ObjAttr (final_exam self))
  else if String.eqb k "drop_time" then Ok (ObjAttr (drop_time self))
  else if existsb (String.eqb k) (class_namespace ++ object_namespace)
  then Ok (ClassAttr k)
  else Raise (AttributeError k).

(** [str(x)] of an attribute; [render] stands for [str] on the payloads
    (lists, dictionaries, dates), whose text form is not modelled, and
    on what the class answers, which is handed to it by name. *)
Definition attribute_str (render : pyobj -> string) (a : attribute)
    : result string :=
  match a with
  | AtomAttr x => Ok (py_str x)
  | TermAttr x => Term.str x
  | ObjAttr o => Ok (render o)
  | ClassAttr k => Ok (render (PAtom (AStr k)))
  end.

(** [__str__]: ['{} - {} - {}'.format(self.term, self.course_name,
    self.course_title)] *)
Definition str (render : pyobj -> string) (self : t) : result string :=
  rbind (getattr self "term") (fun a1 =>
  rbind (getattr self "course_name") (fun a2 =>
  rbind (getattr self "course_title") (fun a3 =>
  rbind (attribute_str render a1) (fun s1 =>
  rbind (attribute_str render a2) (fun s2 =>
  rbind (attribute_str render a3) (fun s3 =>
  str_format "{} - {} - {}" [AStr s1; AStr s2; AStr s3])))))).

(** [__repr__]: ['<Course {} ({})>'.format(self.crn, repr(self.term))] *)
Definition repr (self : t) : result string :=
  rbind (Term.repr (term self)) (fun r =>
  str_format "<Course {} ({})>" [crn self; AStr r]).

End Course.

(** ** Applications *)

(** [x in y] on strings. *)
Fixpoint contains (needle hay : string) : bool :=
  String.prefix needle hay
  || match hay with
     | EmptyString => false
     | String _ hay' => contains needle hay'
     end.

(** *** Classes

    [Application], [ProtectedApplication] and its nested [CAS] are the
    classes of the module; [cls_object] stands for any class that does
    not derive from [Application]. [Sub] is a user subclass that only
    adds (or inherits) the class attribute [BASE] and inherits every
    method. *)
Inductive class :=
| cls_object
| cls_Application
| cls_ProtectedApplication
| cls_CAS
| Sub (name : string) (parent : class) (BASE : option string).

#[global] Instance class_eq_dec : EqDecision class.
Proof. solve_decision. Defined.

(** Method resolution order. *)
Fixpoint mro (c : class) : list class :=
  match c with
  | cls_object => [cls_object]
  | cls_Application => [cls_Application; cls_object]
  | cls_ProtectedApplication =>
      [cls_ProtectedApplication; cls_Application; cls_object]
  | cls_CAS => [cls_CAS; cls_Application; cls_object]
  | Sub _ p _ => c :: mro p
  end.

Definition issubclass (c d : class) : bool := bool_decide (d ∈ mro c).

(** Lookup of the class attribute [BASE] along the MRO. *)
Fixpoint class_BASE (c : class) : option string :=
  match c with
  | cls_CAS => Some "https://cas.ucdavis.edu"
  | Sub _ p b => match b with Some u => Some u | None => class_BASE p end
  | _ => None
  end.

Definition USER_AGENT : string :=
  "Mozilla/5.0 (Macintosh; Intel Mac OS X 10_10_1) AppleWebKit/537"
  +:+ ".36 (KHTML, like Gecko) Chrome/40.0.2214.115 Safari/537.36".

Definition LOGIN_ENDPOINT : string := "/cas/login".

(** The double-quote character. *)
Definition dq : string := String (ascii_of_nat 34) EmptyString.

(** ['<div id="msg" class="success"'] *)
Definition SUCCESS_MARKER : string :=
  "<div id=" +:+ dq +:+ "msg" +:+ dq +:+ " class=" +:+ dq +:+ "success" +:+ dq.

(** *** Parsed HTML

    The tree that [BeautifulSoup(text)] yields: tags with an attribute
    dictionary and children, and text nodes. *)
#[local] Unset Elimination Schemes.
Inductive node :=
| Tag (name : string) (attrs : gmap string string) (children : list node)
| Text (s : string).
#[local] Set Elimination Schemes.

(** A node and the tags below it, in document order. *)
Fixpoint tags_in (n : node) : list node :=
  match n with
  | Text _ => []
  | Tag _ _ cs =>
      n :: (fix go (l : list node) : list node :=
              match l with
              | [] => []
              | c :: l' => tags_in c ++ go l'
              end) cs
  end.

Definition tags_of_list (l : list node) : list node :=
  concat (tags_in <$> l).

Definition node_children (n : node) : list node :=
  match n with
  | Tag _ _ cs => cs
  | Text _ => []
  end.

Definition node_attrs (n : node) : gmap string string :=
  match n with
  | Tag _ a _ => a
  | Text _ => ∅
  end.

(** [tag.find_all(text=False)]: every tag below [tag], in document
    order, and no text node. *)
Definition find_all_tags (n : node) : list node :=
  tags_of_list (node_children n).

Definition is_form_with_id (i : string) (n : node) : bool :=
  match n with
  | Tag nm a _ =>
      String.eqb nm "form" && bool_decide (a !! "id" = Some i)
  | Text _ => false
  end.

(** [soup.find("form", id=i)]: the first matching tag in document order,
    or [None]. *)
Definition soup_find_form (i : string) (soup : list node) : option node :=
  List.find (is_form_with_id i) (tags_of_list soup).

(** *** The store *)

Definition loc := nat.

(** A Python value as the applications see it: a scalar, a reference to
    an object, or a reference to a [requests.Session]. *)
Inductive value :=
| VAtom (a : atom)
| VObj (l : loc)
| VSess (l : loc).

Record object := mkObject {
  ob_class : class;
  ob_attrs : gmap string value
}.

(** [requests.Session]: persistent headers and a cookie jar. *)
Record Session := mkSession {
  headers : gmap string string;
  cookies : gmap string string
}.

(** [requests.Response], as far as the module reads it. *)
Record Response := mkResponse {
  url : string;
  text : string
}.

(** Keyword options forwarded to the transport ([data=...] and so on). *)
Inductive kwval :=
| KwValue (v : value)
| KwDict (d : gmap string value).

(** What leaves through [Session.request]: the call's arguments together
    with the session's headers and cookies at that moment. *)
Record Sent := mkSent {
  sent_method : string;
  sent_url : string;
  sent_kwargs : gmap string kwval;
  sent_headers : gmap string string;
  sent_cookies : gmap string string
}.

(** Ghost log of calls: [EvRequest self method url kwargs] is written by
    [Application.request] when it hands a request to the session of
    [self]; [EvAuth self] is written on entry to [CAS.auth]. *)
Inductive event :=
| EvRequest (self : loc) (method : string) (u : string)
    (kwargs : gmap string kwval)
| EvAuth (self : loc).

Section Applications.

(** The network: given its state and what was sent, the transport
    either yields the final response (after redirects) or fails, and
    determines the session's cookie jar after the exchange. *)
Variable NetSt : Type.
Variable transport :
  NetSt -> Sent -> result Response * gmap string string * NetSt.

(** Headers of a new [requests.Session()]. *)
Variable default_headers : gmap string string.

(** The HTML parser: the top-level nodes of the parsed document. *)
Variable BeautifulSoup : string -> list node.

Record State := mkState {
  objects : list object;
  sessions : list Session;
  net : NetSt;
  trace : list event
}.

Definition M (A : Type) : Type := State -> result A * State.

#[global] Instance M_ret : MRet M := fun A a st => (Ok a, st).
#[global] Instance M_bind : MBind M := fun A B f m st =>
  match m st with
  | (Ok a, st') => f a st'
  | (Raise e, st') => (Raise e, st')
  end.

Definition raise {A} (e : exn) : M A := fun st => (Raise e, st).
Definition gets {A} (f : State -> A) : M A := fun st => (Ok (f st), st).
Definition modify (f : State -> State) : M unit := fun st => (Ok tt, f st).
Definition log (e : event) : M unit :=
  modify (fun st => mkState (objects st) (sessions st) (net st) (trace st ++ [e])).

(** **** Runtime primitives *)

Definition truthy (v : value) : bool :=
  match v with
  | VAtom a => atom_truthy a
  | VObj _ | VSess _ => true
  end.

(** [isinstance(v, c)] *)
Definition isinstance (st : State) (v : value) (c : class) : bool :=
  match v with
  | VObj l =>
      match objects st !! l with
      | Some o => issubclass (ob_class o) c
      | None => false
      end
  | _ => false
  end.

(** The instance dictionary entry [name] of [v], if [v] is an object
    that has one. *)
Definition attr (st : State) (v : value) (name : string) : option value :=
  match v with
  | VObj l => o ← objects st !! l; ob_attrs o !! name
  | _ => None
  end.

(** [v] refers to something that exists in the store. *)
Definition valid_value (st : State) (v : value) : bool :=
  match v with
  | VAtom _ => true
  | VObj l => bool_decide (l < length (objects st))
  | VSess l => bool_decide (l < length (sessions st))
  end.

(** [v.name] for an instance attribute. *)
Definition getattr (v : value) (name : string) : M value := fun st =>
  match attr st v name with
  | Some x => (Ok x, st)
  | None => (Raise (AttributeError name), st)
  end.

(** [self.name = x] *)
Definition setattr (self : loc) (name : string) (x : value) : M unit :=
  modify (fun st =>
    mkState
      (alter (fun o => mkObject (ob_class o) (<[name := x]> (ob_attrs o)))
             self (objects st))
      (sessions st) (net st) (trace st)).

(** [object.__new__(c)]: a new instance without attributes. *)
Definition new_object (c : class) : M loc := fun st =>
  (Ok (length (objects st)),
   mkState (objects st ++ [mkObject c ∅]) (sessions st) (net st) (trace st)).

(** [requests.Session()] *)
Definition new_Session : M loc := fun st =>
  (Ok (length (sessions st)),
   mkState (objects st) (sessions st ++ [mkSession default_headers ∅])
           (net st) (trace st)).

(** [s.headers.update(d)] *)
Definition headers_update (s : value) (d : gmap string string) : M unit :=
  fun st =>
  match s with
  | VSess l =>
      (Ok tt,
       mkState (objects st)
         (alter (fun x => mkSession (d ∪ headers x) (cookies x)) l (sessions st))
         (net st) (trace st))
  | _ => (Raise (AttributeError "headers"), st)
  end.

(** [s.request(method, url, **kwargs)] *)
Definition Session_request (s : value) (method u : string)
    (kwargs : gmap string kwval) : M Response := fun st =>
  match s with
  | VSess l =>
      match sessions st !! l with
      | Some x =>
          let '(r, jar, n) :=
            transport (net st)
              (mkSent method u kwargs (headers x) (cookies x)) in
          (r, mkState (objects st)
                (<[l := mkSession (headers x) jar]> (sessions st))
                n (trace st))
      | None => (Raise (AttributeError "request"), st)
      end
  | _ => (Raise (AttributeError "request"), st)
  end.

(** **** [class Application] *)

(** [__init__(self, shared_app=None)] *)
Definition Application_init (self : loc) (shared_app : value) : M unit :=
  if truthy shared_app then
    b ← gets (fun st => isinstance st shared_app cls_Application);
    if (b : bool) then
      s ← getattr shared_app "s";
      setattr self "s" s
    else
      raise (ValueError "shared_app does not derive from Application")
  else
    s ← new_Session;
    setattr self "s" (VSess s);;
    s' ← getattr (VObj self) "s";
    headers_update s' {[ "User-Agent" := USER_AGENT ]}.

(** [Application(shared_app)] for a class [c] that inherits
    [Application.__init__]. *)
Definition Application_new (c : class) (shared_app : value) : M loc :=
  self ← new_object c;
  Application_init self shared_app;;
  mret self.

(** [request(self, method, base, endpoint, **kwargs)] *)
Definition Application_request (self : loc) (method base endpoint : string)
    (kwargs : gmap string kwval) : M Response :=
  s ← getattr (VObj self) "s";
  log (EvRequest self method (base +:+ endpoint) kwargs);;
  Session_request s method (base +:+ endpoint) kwargs.

(** [self.__class__.BASE] *)
Definition get_BASE (self : loc) : M string := fun st =>
  match objects st !! self with
  | Some o =>
      match class_BASE (ob_class o) with
      | Some b => (Ok b, st)
      | None => (Raise (AttributeError "BASE"), st)
      end
  | None => (Raise (AttributeError "BASE"), st)
  end.

(** [get] and [post], for an instance whose [request] resolves to
    [Application.request]. *)
Definition Application_get (self : loc) (endpoint : string)
    (kwargs : gmap string kwval) : M Response :=
  b ← get_BASE self;
  Application_request self "get" b endpoint kwargs.

Definition Application_post (self : loc) (endpoint : string)
    (kwargs : gmap string kwval) : M Response :=
  b ← get_BASE self;
  Application_request self "post" b endpoint kwargs.

(** **** [class ProtectedApplication.CAS(Application)] *)

(** [__init__(self, username, password, shared_app)] *)
Definition CAS_init (self : loc) (username password shared_app : value)
    : M unit :=
  Application_init self shared_app;;
  setattr self "username" username;;
  setattr self "password" password.

Definition CAS_new (username password shared_app : value) : M loc :=
  self ← new_object cls_CAS;
  CAS_init self username password shared_app;;
  mret self.

(** The loop over [login_form.find_all(text=False)] filling [data]. *)
Definition collect_fields (children : list node) : gmap string value :=
  foldl (fun data child =>
           match node_attrs child !! "name", node_attrs child !! "value" with
           | Some n, Some v => <[n := VAtom (AStr v)]> data
           | _, _ => data
           end) ∅ children.

(** [auth(self)] *)
Definition CAS_auth (self : loc) : M unit :=
  log (EvAuth self);;
  auth_page ← Application_get self LOGIN_ENDPOINT ∅;
  if contains SUCCESS_MARKER (text auth_page) then mret tt
  else
    let soup := BeautifulSoup (text auth_page) in
    match soup_find_form "fm1" soup with
    | None => raise (AttributeError "find_all")
    | Some login_form =>
        let data := collect_fields (find_all_tags login_form) in
        username ← getattr (VObj self) "username";
        let data := <["username" := username]> data in
        password ← getattr (VObj self) "password";
        let data := <["password" := password]> data in
        match node_attrs login_form !! "action" with
        | None => raise (KeyError "action")
        | Some action =>
            r ← Application_post self action {[ "data" := KwDict data ]};
            if negb (contains SUCCESS_MARKER (text r))
            then raise InvalidLoginError
            else mret tt
        end
    end.

(** [v.auth()]: only [CAS] instances have the method. *)
Definition call_auth (v : value) : M unit :=
  b ← gets (fun st => isinstance st v cls_CAS);
  if (b : bool) then
    match v with
    | VObj l => CAS_auth l
    | _ => raise (AttributeError "auth")
    end
  else raise (AttributeError "auth").

(** **** [class ProtectedApplication(Application)] *)

(** [__init__(self, username=None, password=None, shared_app=None)] *)
Definition ProtectedApplication_init (self : loc)
    (username password shared_app : value) : M unit :=
  Application_init self shared_app;;
  b ← gets (fun st => isinstance st shared_app cls_ProtectedApplication);
  (if (b : bool) then
     u ← getattr shared_app "username";
     p ← getattr shared_app "password";
     c ← CAS_new u p (VObj self);
     setattr self "auth_service" (VObj c)
   else mret tt);;
  if truthy username && truthy password then
    c ← CAS_new username password (VObj self);
    setattr self "auth_service" (VObj c)
  else mret tt.

Definition ProtectedApplication_new (c : class)
    (username password shared_app : value) : M loc :=
  self ← new_object c;
  ProtectedApplication_init self username password shared_app;;
  mret self.

(** [request(self, method, base, endpoint, **kwargs)] *)
Definition ProtectedApplication_request (self : loc)
    (method base endpoint : string) (kwargs : gmap string kwval)
    : M Response :=
  r ← Application_request self method base endpoint kwargs;
  if negb (contains "cas.ucdavis" (url r)) then mret r
  else
    a ← getattr (VObj self) "auth_service";
    call_auth a;;
    Application_request self method base endpoint kwargs.

(** **** [get] and [post] with method resolution

    [self.request] resolves to [ProtectedApplication.request] on an
    instance of [ProtectedApplication] and to [Application.request] on
    any other instance. *)
Definition request (self : loc) (method base endpoint : string)
    (kwargs : gmap string kwval) : M Response :=
  protected ← gets (fun st => isinstance st (VObj self) cls_ProtectedApplication);
  if (protected : bool)
  then ProtectedApplication_request self method base endpoint kwargs
  else Application_request self method base endpoint kwargs.

(** [get(self, *args, **kwargs)] *)
Definition get (self : loc) (endpoint : string) (kwargs : gmap string kwval)
    : M Response :=
  b ← get_BASE self;
  request self "get" b endpoint kwargs.

(** [post(self, *args, **kwargs)] *)
Definition post (self : loc) (endpoint : string) (kwargs : gmap string kwval)
    : M Response :=
  b ← get_BASE self;
  request self "post" b endpoint kwargs.

End Applications.

Arguments State NetSt : clear implicits.
Arguments mkState {NetSt} objects sessions net trace.
Arguments objects {NetSt} s.
Arguments sessions {NetSt} s.
Arguments net {NetSt} s.
Arguments trace {NetSt} s.
Arguments truthy v : simpl nomatch.
Arguments isinstance {NetSt} st v c.
Arguments attr {NetSt} st v name : simpl never.
Arguments valid_value {NetSt} st v.
Arguments getattr {NetSt} v name st.
Arguments setattr {NetSt} self name x st.
Arguments new_object {NetSt} c st.
Arguments new_Session {NetSt} default_headers st.
Arguments headers_update {NetSt} s d st.
Arguments Session_request {NetSt} transport s method u kwargs st.
Arguments Application_init {NetSt} default_headers self shared_app st.
Arguments Application_new {NetSt} default_headers c shared_app st.
Arguments Application_request {NetSt} transport self method base endpoint kwargs st.
Arguments get_BASE {NetSt} self st.
Arguments Application_get {NetSt} transport self endpoint kwargs st.
Arguments Application_post {NetSt} transport self endpoint kwargs st.
Arguments CAS_init {NetSt} default_headers self username password shared_app st.
Arguments CAS_new {NetSt} default_headers username password shared_app st.
Arguments CAS_auth {NetSt} transport BeautifulSoup self st.
Arguments call_auth {NetSt} transport BeautifulSoup v st.
Arguments ProtectedApplication_init {NetSt} default_headers self username password shared_app st.
Arguments ProtectedApplication_new {NetSt} default_headers c username password shared_app st.
Arguments ProtectedApplication_request {NetSt} transport BeautifulSoup self method base endpoint kwargs st.
Arguments request {NetSt} transport BeautifulSoup self method base endpoint kwargs st.
Arguments get {NetSt} transport BeautifulSoup self endpoint kwargs st.
Arguments post {NetSt} transport BeautifulSoup self endpoint kwargs st.

(** ** Reading the call log *)

Definition is_request_by (self : loc) (e : event) : bool :=
  match e with
  | EvRequest l _ _ _ => Nat.eqb l self
  | EvAuth _ => false
  end.

Definition is_auth (e : event) : bool :=
  match e with
  | EvAuth _ => true
  | EvRequest _ _ _ _ => false
  end.

Definition is_post (e : event) : bool :=
  match e with
  | EvRequest _ m _ _ => String.eqb m "post"
  | EvAuth _ => false
  end.

(** Number of requests that [self] handed to its session. *)
Definition count_requests (self : loc) (tr : list event) : nat :=
  length (List.filter (is_request_by self) tr).

(** Number of entries into [CAS.auth]. *)
Definition count_auth (tr : list event) : nat :=
  length (List.filter is_auth tr).

Definition count_posts (tr : list event) : nat :=
  length (List.filter is_post tr).

(** What was logged between the store [st] and the later store [st']. *)
Definition new_events {NetSt} (st st' : State NetSt) : list event :=
  drop (length (trace st)) (trace st').


(** ** Shapes of stores used in the statements *)

Section Stores.

Context {NetSt : Type}.
Implicit Types st : State NetSt.

(** The store in which the session at [l] has gone through one more
    exchange and [evs] were logged. *)
Definition exchanged st (l : loc) (x : Session) (jar : gmap string string)
    (n : NetSt) (evs : list event) : State NetSt :=
  mkState (objects st) (<[l := mkSession (headers x) jar]> (sessions st)) n
          (trace st ++ evs).

(** Every event of [d] is a request handed over by [self]. *)
Definition issued_by (self : loc) (d : list event) : Prop :=
  Forall (fun ev => is_request_by self ev = true) d.

(** [st'] differs from [st] by at most [k] requests of [self] (and by
    what those exchanges did to sessions and network). *)
Definition requests_only (self : loc) (k : nat) st st' : Prop :=
  objects st' = objects st
  /\ exists d, trace st' = trace st ++ d /\ issued_by self d /\ length d <= k.

(** The store right after [object.__new__(c)]. *)
Definition allocated st (c : class) : State NetSt :=
  mkState (objects st ++ [mkObject c ∅]) (sessions st) (net st) (trace st).

(** The store in which the new object has got its only attribute;
    sessions are those of [st1]. *)
Definition with_session st st1 (c : class) (s : value) : State NetSt :=
  mkState (objects st ++ [mkObject c {[ "s" := s ]}])
          (sessions st1) (net st) (trace st).

(** [st'] has the sessions of [st], each with the headers it had. *)
Definition sessions_kept st st' : Prop :=
  length (sessions st') = length (sessions st)
  /\ forall l, headers <$> sessions st' !! l = headers <$> sessions st !! l.

End Stores.

(** The session that [Application.__init__] sets up when nothing is
    shared. *)
Definition fresh_session (default_headers : gmap string string) : Session :=
  mkSession ({[ "User-Agent" := USER_AGENT ]} ∪ default_headers) ∅.

(** ** Sharing a session *)

Section Sharing.

Context {NetSt : Type}.
Variable transport :
  NetSt -> Sent -> result Response * gmap string string * NetSt.
Implicit Types st : State NetSt.

(** In [st'], reached from [st], the clients [A] and [B] hold the one
    session reference [s] and no session was added; whichever of the
    two issues a request, the next request of either is sent with the
    cookie jar that exchange left. *)
Definition session_shared (st st' : State NetSt) (A B : loc) (s : value)
    : Prop :=
  attr st' (VObj B) "s" = Some s
  /\ attr st' (VObj A) "s" = Some s
  /\ sessions st' = sessions st
  /\ forall l x X Y m1 b1 e1 k1 m2 b2 e2 k2 r1 jar1 n1 r2 jar2 n2,
       s = VSess l ->
       sessions st !! l = Some x ->
       X ∈ [A; B] -> Y ∈ [A; B] ->
       transport (net st')
         (mkSent m1 (b1 +:+ e1) k1 (headers x) (cookies x))
         = (r1, jar1, n1) ->
       transport n1 (mkSent m2 (b2 +:+ e2) k2 (headers x) jar1)
         = (r2, jar2, n2) ->
       exists st1 st2,
         Application_request transport X m1 b1 e1 k1 st' = (r1, st1)
         /\ Application_request transport Y m2 b2 e2 k2 st1 = (r2, st2)
         /\ sessions st2 !! l = Some (mkSession (headers x) jar2).

(** In [st'], reached from [st], the client [B] holds a session that
    [st] did not have: the one session added, without cookies and with
    the fixed User-Agent among its headers. *)
Definition session_fresh (st st' : State NetSt) (B : loc) : Prop :=
  exists x,
    attr st' (VObj B) "s" = Some (VSess (length (sessions st)))
    /\ sessions st !! length (sessions st) = None
    /\ length (sessions st') = S (length (sessions st))
    /\ sessions st' !! length (sessions st) = Some x
    /\ headers x !! "User-Agent" = Some USER_AGENT
    /\ cookies x = ∅.

(** While the rest of a constructor runs on the store [stX], the
    sessions are those of [stS], the new client (the first object after
    those of [st]) holds [s], and the objects of [st] are as they
    were. *)
Definition client_kept (st stS : State NetSt) (s : value)
    (stX : State NetSt) : Prop :=
  sessions stX = sessions stS
  /\ net stX = net st
  /\ length (objects st) < length (objects stX)
  /\ attr stX (VObj (length (objects st))) "s" = Some s
  /\ forall A name,
       A < length (objects st) ->
       attr stX (VObj A) name = attr st (VObj A) name.

End Sharing.

(** ** Form fields *)

(** The pair that a tag contributes to the submitted data, if it carries
    both a [name] and a [value] attribute. *)
Definition field_pair (n : node) : option (string * value) :=
  match node_attrs n !! "name", node_attrs n !! "value" with
  | Some k, Some v => Some (k, VAtom (AStr v))
  | _, _ => None
  end.

Definition is_hidden_input (n : node) : bool :=
  match n with
  | Tag nm a _ =>
      String.eqb nm "input" && bool_decide (a !! "type" = Some "hidden")
  | Text _ => false
  end.

(** The specification's reading of the login data: the name/value pairs
    of the form's hidden fields, plus the [username] and [password]
    fields. *)
Definition spec_hidden_fields (form : node) : gmap string value :=
  list_to_map
    (reverse (omap (fun n => if is_hidden_input n then field_pair n else None)
                   (find_all_tags form))).

Definition spec_login_data (form : node) (username password : value)
    : gmap string value :=
  <["password" := password]> (<["username" := username]> (spec_hidden_fields form)).

(** ** A simulated deployment

    A concrete network, parser and a few stores on which the model can
    be run: a CAS server that grants a ticket cookie for the password
    [secret], and a protected site that redirects to the login page
    until the ticket is presented. *)
Module Sim.

Definition login_url : string := "https://cas.ucdavis.edu/cas/login".

Definition login_page : string := "<html>login form</html>".
Definition login_page_with_button : string := "<html>login form, button</html>".
Definition success_page : string := SUCCESS_MARKER +:+ ">ok</div>".

Definition hidden (n v : string) : node :=
  Tag "input" {[ "type" := "hidden"; "name" := n; "value" := v ]} [].

Definition form_inputs : list node :=
  [ hidden "lt" "X";
    hidden "execution" "Y";
    Tag "input" {[ "type" := "text"; "name" := "username" ]} [];
    Tag "input" {[ "type" := "password"; "name" := "password" ]} [] ].

Definition login_form : node :=
  Tag "form" {[ "id" := "fm1"; "action" := "/cas/login" ]} form_inputs.

Definition submit_button : node :=
  Tag "input" {[ "type" := "submit"; "name" := "submit"; "value" := "LOGIN" ]} [].

Definition login_form_with_button : node :=
  Tag "form" {[ "id" := "fm1"; "action" := "/cas/login" ]}
    (form_inputs ++ [submit_button]).

Definition parser (s : string) : list node :=
  if String.eqb s login_page then
    [Tag "html" ∅ [Tag "body" ∅ [Text "Please log in"; login_form]]]
  else if String.eqb s login_page_with_button then
    [Tag "html" ∅ [Tag "body" ∅ [login_form_with_button]]]
  else [].

Definition password_ok (kwargs : gmap string kwval) : bool :=
  match kwargs !! "data" with
  | Some (KwDict d) =>
      match d !! "password" with
      | Some (VAtom (AStr p)) => String.eqb p "secret"
      | _ => false
      end
  | _ => false
  end.

Definition has_ticket (jar : gmap string string) : bool :=
  bool_decide (is_Some (jar !! "CASTGC")).

(** The network state counts the exchanges. [page] is what the login
    service shows to a visitor without a ticket. *)
Definition transport_showing (page : string) (n : nat) (s : Sent)
    : result Response * gmap string string * nat :=
  let jar := sent_cookies s in
  if contains "cas.ucdavis.edu" (sent_url s) then
    if String.eqb (sent_method s) "post" then
      if password_ok (sent_kwargs s)
      then (Ok (mkResponse login_url success_page),
            <["CASTGC" := "ticket"]> jar, S n)
      else (Ok (mkResponse login_url page), jar, S n)
    else
      if has_ticket jar
      then (Ok (mkResponse login_url success_page), jar, S n)
      else (Ok (mkResponse login_url page), jar, S n)
  else
    if has_ticket jar
    then (Ok (mkResponse (sent_url s) "courses"), jar, S n)
    else (Ok (mkResponse login_url page), jar, S n).

Definition transport := transport_showing login_page.
Definition transport_button := transport_showing login_page_with_button.

Definition default_headers : gmap string string :=
  {[ "User-Agent" := "python-requests"; "Accept" := "*/*" ]}.

Definition st0 : State nat := mkState [] [] 0 [].

Definition str (s : string) : value := VAtom (AStr s).
Definition none : value := VAtom ANone.

(** The store after [ProtectedApplication(username, password)]. *)
Definition after_login_client (username password : string) : State nat :=
  snd (ProtectedApplication_new default_headers cls_ProtectedApplication
         (str username) (str password) none st0).

(** The store after [Application()]. *)
Definition after_plain_client : State nat :=
  snd (Application_new default_headers cls_Application none st0).

(** The store after [ProtectedApplication()], without credentials. *)
Definition after_anonymous_client : State nat :=
  snd (ProtectedApplication_new default_headers cls_ProtectedApplication
         none none none st0).

Definition site : string := "https://registrar.ucdavis.edu".

(** A store holding one object of a class unrelated to [Application]. *)
Definition st_foreign : State nat := mkState [mkObject cls_object ∅] [] 0 [].

(** The store after the client of [after_login_client] has logged in. *)
Definition logged_in : State nat :=
  snd (CAS_auth transport parser 1 (after_login_client "alice" "secret")).

Definition object_at (st : State nat) (l : loc) : object :=
  default (mkObject cls_object ∅) (objects st !! l).

Definition session_at (st : State nat) (l : loc) : Session :=
  default (mkSession ∅ ∅) (sessions st !! l).

Definition ticket_jar : gmap string string := {[ "CASTGC" := "ticket" ]}.

(** The data of the login form of [login_page] for alice. *)
Definition example_data : gmap string value :=
  {[ "lt" := str "X"; "execution" := str "Y";
     "username" := str "alice"; "password" := str "secret" ]}.

Definition attrs_of (tag : string) : gmap string pyobj :=
  list_to_map
    ((fun k => (k, PAtom (AStr (k +:+ tag)))) <$>
     ["name"; "number"; "section"; "title"; "units"; "instructor";
      "subject"; "ge_credit"; "available_seats"; "max_enrollment";
      "meetings"; "description"; "final_exam"; "drop_time"]).

Definition fall_2014 : Term.t := Term.mk (AInt 2014) Term.FALL_QUARTER.

(** A login service that answers with a page without any form. *)
Definition maintenance_page : string := "<html>maintenance</html>".
Definition transport_maintenance := transport_showing maintenance_page.

(** A network on which every exchange fails. *)
Definition transport_down (n : nat) (s : Sent)
    : result Response * gmap string string * nat :=
  (Raise (TransportError "connection refused"), sent_cookies s, S n).

(** A login service that shows the success page to everybody and sets
    a session cookie with every answer. *)
Definition transport_welcome (n : nat) (s : Sent)
    : result Response * gmap string string * nat :=
  (Ok (mkResponse login_url success_page),
   <["JSESSIONID" := "fresh"]> (sent_cookies s), S n).

End Sim.

(** * Properties *)

(** ** Data containers *)

Lemma append_nil_r (s : string) : s +:+ EmptyString = s.
Proof.
  induction s as [|c s IH]; [done |].
  change (String c (s +:+ EmptyString) = String c s). by rewrite IH.
Qed.

Lemma Session_value_length (m : Term.Session) :
  String.length (Term.value m) = 2.
Proof. by destruct m. Qed.

Lemma Term_init_fields y s t :
  Term.init y s = Ok t -> Term.year t = y /\ Term.Session_call s = Ok (Term.session t).
Proof.
  unfold Term.init. destruct (Term.Session_call s) as [m|e]; [|done].
  intros [= <-]. done.
Qed.

Lemma Term_code_of_fields (t : Term.t) :
  Term.code t = Ok (py_str (Term.year t) +:+ Term.value (Term.session t)).
Proof.
  unfold Term.code, str_format. cbn.
  change (digit_of "0") with (Some 0). change (digit_of "1") with (Some 1).
  cbn. by rewrite append_nil_r.
Qed.

(** C8: for every year and session accepted by the constructor, the
    term holds that year and the session that the argument denotes (the
    member itself, or the member with the given value), and the term's
    [code] is the year rendered as a string followed by the
    two-character value of that session. *)
Theorem Term_code_is_year_then_session_value y s t :
  Term.init y s = Ok t ->
  exists m,
    match s with
    | Term.Member m' => m' = m
    | Term.ByValue a => a = AStr (Term.value m)
    end
    /\ Term.year t = y
    /\ Term.session t = m
    /\ Term.code t = Ok (py_str y +:+ Term.value m)
    /\ String.length (Term.value m) = 2.
Proof.
  intros Hinit. apply Term_init_fields in Hinit as [<- Hcall].
  exists (Term.session t). split; [|split; [done|split; [done|split]]].
  - unfold Term.Session_call in Hcall.
    destruct s as [m'|a]; [congruence|].
    destruct a as [| | |v]; try discriminate.
    destruct (List.find _ Term.members) as [m'|] eqn:Hfind; [|discriminate].
    injection Hcall as <-. apply List.find_some in Hfind as [_ H].
    apply String.eqb_eq in H. by rewrite H.
  - apply Term_code_of_fields.
  - apply Session_value_length.
Qed.

Lemma Term_code_is_year_then_session_value_witness :
  Term.init (AInt 2014) (Term.Member Term.FALL_QUARTER)
    = Ok (Term.mk (AInt 2014) Term.FALL_QUARTER)
  /\ Term.code (Term.mk (AInt 2014) Term.FALL_QUARTER) = Ok "201410".
Proof.
  split; [reflexivity |].
  destruct (Term_code_is_year_then_session_value (AInt 2014)
              (Term.Member Term.FALL_QUARTER)
              (Term.mk (AInt 2014) Term.FALL_QUARTER) eq_refl)
    as (m & <- & _ & _ & Hcode & _).
  exact Hcode.
Defined.

(** C9: two terms compare equal exactly when their years agree as
    strings and their sessions are the same member; in particular the
    integer year 2014 and the string year "2014" give equal terms. *)
Theorem Term_eq_iff_year_str_and_session :
  (forall a b : Term.t,
     Term.eq a b = true
     <-> py_str (Term.year a) = py_str (Term.year b)
         /\ Term.session a = Term.session b)
  /\ (forall m : Term.Session,
        Term.eq (Term.mk (AInt 2014) m) (Term.mk (AStr "2014") m) = true).
Proof.
  split.
  - intros a b. unfold Term.eq.
    rewrite andb_true_iff, String.eqb_eq, bool_decide_eq_true. done.
  - intros m. unfold Term.eq. cbn. by rewrite bool_decide_eq_true_2.
Qed.

Lemma Course_init_fields crn0 term0 attrs c :
  Course.init crn0 term0 attrs = Ok c ->
  Course.crn c = crn0 /\ Course.term c = term0.
Proof.
  unfold Course.init, Course.rbind.
  repeat (match goal with
          | |- context [Course.getitem ?a ?k] =>
              destruct (Course.getitem a k); [|done]
          end).
  intros [= <-]. done.
Qed.

(** C10: two courses built by the constructor compare equal exactly when
    their reference numbers compare equal and their terms compare equal;
    the keyword attributes play no part. *)
Theorem Course_eq_iff_crn_and_term crn1 term1 attrs1 c1 crn2 term2 attrs2 c2 :
  Course.init crn1 term1 attrs1 = Ok c1 ->
  Course.init crn2 term2 attrs2 = Ok c2 ->
  Course.eq c1 c2 = true
  <-> py_eq crn1 crn2 = true /\ Term.eq term1 term2 = true.
Proof.
  intros H1 H2.
  apply Course_init_fields in H1 as [<- <-].
  apply Course_init_fields in H2 as [<- <-].
  unfold Course.eq. by rewrite andb_true_iff.
Qed.

(** ** Applications *)

Ltac run_monad :=
  unfold mbind, M_bind, mret, M_ret, raise, gets, modify, log in *.

Lemma count_requests_app self (a b : list event) :
  count_requests self (a ++ b) = count_requests self a + count_requests self b.
Proof. unfold count_requests. by rewrite List.filter_app, length_app. Qed.

Lemma count_auth_app (a b : list event) :
  count_auth (a ++ b) = count_auth a + count_auth b.
Proof. unfold count_auth. by rewrite List.filter_app, length_app. Qed.

Lemma count_posts_app (a b : list event) :
  count_posts (a ++ b) = count_posts a + count_posts b.
Proof. unfold count_posts. by rewrite List.filter_app, length_app. Qed.

(** A class cannot derive from both [CAS] and [ProtectedApplication]. *)
Lemma CAS_not_Protected (c : class) :
  issubclass c cls_CAS = true -> issubclass c cls_ProtectedApplication = false.
Proof.
  unfold issubclass. rewrite bool_decide_eq_true, bool_decide_eq_false.
  induction c as [| | | |n p IH b]; simpl;
    rewrite ?elem_of_cons, ?elem_of_nil; intuition discriminate.
Qed.

Section Properties.

Context {NetSt : Type}.
Variable transport :
  NetSt -> Sent -> result Response * gmap string string * NetSt.
Variable default_headers : gmap string string.
Variable BeautifulSoup : string -> list node.

Implicit Types (st : State NetSt) (self : loc) (kw : gmap string kwval).

Lemma Application_request_run st self m b e kw l x :
  attr st (VObj self) "s" = Some (VSess l) ->
  sessions st !! l = Some x ->
  Application_request transport self m b e kw st =
    let '(r, jar, n) :=
      transport (net st) (mkSent m (b +:+ e) kw (headers x) (cookies x)) in
    (r, exchanged st l x jar n [EvRequest self m (b +:+ e) kw]).
Proof.
  intros Hs Hx. unfold Application_request, getattr, Session_request.
  run_monad. rewrite Hs. simpl. rewrite Hx.
  by destruct (transport _ _) as [[r jar] n].
Qed.

Lemma Application_request_frame st self m b e kw r st' :
  Application_request transport self m b e kw st = (r, st') ->
  objects st' = objects st
  /\ ((trace st' = trace st /\ r = Raise (AttributeError "s"))
      \/ trace st' = trace st ++ [EvRequest self m (b +:+ e) kw]).
Proof.
  unfold Application_request, getattr, Session_request. run_monad.
  destruct (attr st (VObj self) "s") as [s|]; simpl.
  - destruct s as [a|l|l]; simpl; try (intros [= <- <-]; auto).
    destruct (sessions st !! l) as [x|]; simpl.
    + destruct (transport _ _) as [[r0 jar] n]. intros [= <- <-]; auto.
    + intros [= <- <-]; auto.
  - intros [= <- <-]; auto.
Qed.

Lemma get_BASE_run st self o base :
  objects st !! self = Some o ->
  class_BASE (ob_class o) = Some base ->
  get_BASE self st = (Ok base, st).
Proof. intros Ho Hb. unfold get_BASE. by rewrite Ho, Hb. Qed.

Lemma attr_of_object st self o name :
  objects st !! self = Some o ->
  attr st (VObj self) name = ob_attrs o !! name.
Proof. intros Ho. unfold attr. by rewrite Ho. Qed.

(** C4 (as the code has it): if the login page fetched by [auth] already
    carries the success marker, [auth] returns normally, the only
    exchange is that GET (no POST), and the store is exactly as the GET
    left it: the session keeps its headers and holds the jar of that
    exchange, so it is unchanged whenever the exchange did not change
    the jar. *)
Theorem auth_is_noop_when_already_logged_in
    st self o base l x page jar n :
  objects st !! self = Some o ->
  class_BASE (ob_class o) = Some base ->
  ob_attrs o !! "s" = Some (VSess l) ->
  sessions st !! l = Some x ->
  transport (net st)
    (mkSent "get" (base +:+ LOGIN_ENDPOINT) ∅ (headers x) (cookies x))
    = (Ok page, jar, n) ->
  contains SUCCESS_MARKER (text page) = true ->
  let st' :=
    exchanged st l x jar n
      [EvAuth self; EvRequest self "get" (base +:+ LOGIN_ENDPOINT) ∅] in
  CAS_auth transport BeautifulSoup self st = (Ok tt, st')
  /\ count_posts (trace st') = count_posts (trace st)
  /\ count_requests self (trace st') = S (count_requests self (trace st))
  /\ (jar = cookies x -> sessions st' = sessions st).
Proof.
  intros Ho Hb Hs Hx Hget Hmark st'. split; [|split; [|split]].
  - unfold CAS_auth, Application_get. run_monad. simpl.
    erewrite get_BASE_run by eauto.
    erewrite Application_request_run; [|by erewrite attr_of_object|done].
    simpl. rewrite Hget, Hmark. unfold st', exchanged. simpl.
    by rewrite <- app_assoc.
  - unfold st', exchanged. simpl. rewrite count_posts_app.
    change (count_posts [_; _]) with 0. lia.
  - unfold st', exchanged. simpl. rewrite count_requests_app.
    unfold count_requests at 2. simpl. rewrite Nat.eqb_refl. simpl. lia.
  - intros ->. unfold st', exchanged. simpl.
    apply list_insert_id. by destruct x.
Qed.

Lemma collect_fields_from (cs : list node) (acc : gmap string value) :
  foldl (fun data child =>
           match node_attrs child !! "name", node_attrs child !! "value" with
           | Some k, Some v => <[k := VAtom (AStr v)]> data
           | _, _ => data
           end) acc cs
  = list_to_map (reverse (omap field_pair cs)) ∪ acc.
Proof.
  revert acc. induction cs as [|c cs IH]; intros acc; simpl.
  - by rewrite (left_id_L ∅ (∪)).
  - rewrite IH. unfold field_pair at 2.
    destruct (node_attrs c !! "name") as [k|];
      [destruct (node_attrs c !! "value") as [v|]|]; try done.
    rewrite reverse_cons, list_to_map_app. simpl.
    rewrite insert_empty, (insert_union_singleton_l acc).
    by rewrite (assoc_L (∪)).
Qed.

(** The loop keeps, for every name, the value of the last tag that
    carries it. *)
Lemma collect_fields_pairs (cs : list node) :
  collect_fields cs = list_to_map (reverse (omap field_pair cs)).
Proof.
  unfold collect_fields. rewrite collect_fields_from.
  by rewrite (right_id_L ∅ (∪)).
Qed.

(** C3 (as the code has it): when the login page lacks the success
    marker and holds the form [fm1] with an [action], [auth] issues,
    after the GET, exactly one POST to that action. Its [data] holds
    the name/value pair of every tag inside the form that carries both
    attributes (the last one for a repeated name), with [username] and
    [password] then set from the credentials. [auth] returns normally
    if the POST's response body contains the success marker, raises
    [InvalidLoginError] if it does not, and lets a transport failure
    through. *)
Theorem auth_posts_collected_fields_and_credentials
    st self o base l x page jar n form action u p r jar' n' :
  objects st !! self = Some o ->
  class_BASE (ob_class o) = Some base ->
  ob_attrs o !! "s" = Some (VSess l) ->
  ob_attrs o !! "username" = Some u ->
  ob_attrs o !! "password" = Some p ->
  sessions st !! l = Some x ->
  transport (net st)
    (mkSent "get" (base +:+ LOGIN_ENDPOINT) ∅ (headers x) (cookies x))
    = (Ok page, jar, n) ->
  contains SUCCESS_MARKER (text page) = false ->
  soup_find_form "fm1" (BeautifulSoup (text page)) = Some form ->
  node_attrs form !! "action" = Some action ->
  let data : gmap string value :=
    <["password" := p]>
      (<["username" := u]>
         (list_to_map (reverse (omap field_pair (find_all_tags form))))) in
  let kwargs : gmap string kwval := {[ "data" := KwDict data ]} in
  transport n (mkSent "post" (base +:+ action) kwargs (headers x) jar)
    = (r, jar', n') ->
  let evs :=
    [EvAuth self;
     EvRequest self "get" (base +:+ LOGIN_ENDPOINT) ∅;
     EvRequest self "post" (base +:+ action) kwargs] in
  CAS_auth transport BeautifulSoup self st
    = (match r with
       | Ok resp =>
           if contains SUCCESS_MARKER (text resp)
           then Ok tt else Raise InvalidLoginError
       | Raise ex => Raise ex
       end,
       exchanged st l x jar' n' evs)
  /\ count_posts evs = 1.
Proof.
  intros Ho Hb Hs Hu Hp Hx Hget Hmark Hform Hact data kwargs Hpost evs.
  split; [|reflexivity].
  unfold CAS_auth, Application_get, Application_post. run_monad. simpl.
  erewrite get_BASE_run by eauto.
  erewrite Application_request_run; [|by erewrite attr_of_object|done].
  simpl. rewrite Hget, Hmark, Hform. unfold getattr.
  rewrite (attr_of_object _ self o) by done. rewrite Hu. simpl.
  rewrite (attr_of_object _ self o) by done. rewrite Hp, Hact. simpl.
  erewrite get_BASE_run by eauto.
  erewrite Application_request_run;
    [|by erewrite attr_of_object|by apply list_lookup_insert_eq, lookup_lt_Some with x].
  simpl. rewrite collect_fields_pairs. fold data. fold kwargs.
  rewrite Hpost. unfold exchanged. simpl.
  rewrite list_insert_insert_eq, <- !app_assoc. simpl.
  destruct r as [resp|ex]; [|done].
  by destruct (contains SUCCESS_MARKER (text resp)).
Qed.

(** **** Frames: what a call may change *)

Lemma requests_only_refl self k st : requests_only self k st st.
Proof.
  split; [done|]. exists []. rewrite app_nil_r.
  repeat split; [constructor | simpl; lia].
Qed.

Lemma requests_only_trans self j k st1 st2 st3 :
  requests_only self j st1 st2 -> requests_only self k st2 st3 ->
  requests_only self (j + k) st1 st3.
Proof.
  intros [Ho1 (d1 & Ht1 & Hi1 & Hl1)] [Ho2 (d2 & Ht2 & Hi2 & Hl2)].
  split; [congruence|]. exists (d1 ++ d2).
  rewrite Ht2, Ht1, <- app_assoc, length_app.
  repeat split; [by apply Forall_app | lia].
Qed.

Lemma Application_request_only st self m b e kw r st' :
  Application_request transport self m b e kw st = (r, st') ->
  requests_only self 1 st st'.
Proof.
  intros H. apply Application_request_frame in H as [Ho [[Ht _]|Ht]].
  - split; [done|]. exists []. rewrite app_nil_r.
    repeat split; [done | constructor | simpl; lia].
  - split; [done|]. eexists. split; [done|].
    split; [|simpl; lia]. constructor; [|constructor].
    simpl. apply Nat.eqb_refl.
Qed.

Lemma get_BASE_pure st self r st1 :
  get_BASE self st = (r, st1) -> st1 = st.
Proof.
  unfold get_BASE. destruct (objects st !! self) as [o|]; [|congruence].
  destruct (class_BASE (ob_class o)); congruence.
Qed.

Lemma with_BASE_only st self m e kw r st' :
  (b ← get_BASE self; Application_request transport self m b e kw) st
    = (r, st') ->
  requests_only self 1 st st'.
Proof.
  run_monad.
  destruct (get_BASE self st) as [[b|ex] st1] eqn:Hb;
    apply get_BASE_pure in Hb as ->.
  - apply Application_request_only.
  - intros [= <- <-]. apply requests_only_refl.
Qed.

Lemma Application_get_only st self e kw r st' :
  Application_get transport self e kw st = (r, st') ->
  requests_only self 1 st st'.
Proof. apply with_BASE_only. Qed.

Lemma Application_post_only st self e kw r st' :
  Application_post transport self e kw st = (r, st') ->
  requests_only self 1 st st'.
Proof. apply with_BASE_only. Qed.

Lemma getattr_pure st v name r st1 :
  getattr v name st = (r, st1) -> st1 = st.
Proof. unfold getattr. destruct (attr st v name); congruence. Qed.

(** [auth] logs its entry and then only issues requests of its own:
    the GET of the login page and at most one POST. *)
Lemma CAS_auth_frame st self r st' :
  CAS_auth transport BeautifulSoup self st = (r, st') ->
  objects st' = objects st
  /\ exists d, trace st' = trace st ++ EvAuth self :: d
               /\ issued_by self d /\ length d <= 2.
Proof.
  unfold CAS_auth. run_monad. simpl.
  set (st_a := mkState (objects st) (sessions st) (net st)
                       (trace st ++ [EvAuth self])).
  assert (forall st2 k, requests_only self k st_a st2 -> k <= 2 ->
            objects st2 = objects st
            /\ exists d, trace st2 = trace st ++ EvAuth self :: d
                         /\ issued_by self d /\ length d <= 2) as Hdone.
  { intros st2 k [Ho (d & Ht & Hi & Hl)] Hk. split; [done|].
    exists d. rewrite Ht. simpl. rewrite <- app_assoc.
    repeat split; [done | lia]. }
  destruct (Application_get transport self LOGIN_ENDPOINT ∅ st_a)
    as [[page|ex] st1] eqn:Hget;
    apply Application_get_only in Hget;
    [|intros [= <- <-]; apply (Hdone _ 1); [done | lia]].
  destruct (contains SUCCESS_MARKER (text page));
    [intros [= <- <-]; apply (Hdone _ 1); [done | lia]|].
  destruct (soup_find_form "fm1" (BeautifulSoup (text page))) as [form|];
    [|intros [= <- <-]; apply (Hdone _ 1); [done | lia]].
  destruct (getattr (VObj self) "username" st1) as [[u|ex] st2] eqn:Hu;
    apply getattr_pure in Hu as ->;
    [|intros [= <- <-]; apply (Hdone _ 1); [done | lia]].
  destruct (getattr (VObj self) "password" st1) as [[p|ex] st2] eqn:Hp;
    apply getattr_pure in Hp as ->;
    [|intros [= <- <-]; apply (Hdone _ 1); [done | lia]].
  destruct (node_attrs form !! "action") as [action|];
    [|intros [= <- <-]; apply (Hdone _ 1); [done | lia]].
  match goal with
  | |- context [Application_post ?t ?s ?e ?k ?st] =>
      destruct (Application_post t s e k st) as [[resp|ex] st2] eqn:Hpost
  end;
    apply Application_post_only in Hpost;
    pose proof (requests_only_trans _ _ _ _ _ _ Hget Hpost) as Hboth.
  - destruct (negb (contains SUCCESS_MARKER (text resp)));
      intros [= <- <-]; (apply (Hdone _ (1 + 1)); [done | lia]).
  - intros [= <- <-]. apply (Hdone _ (1 + 1)); [done | lia].
Qed.

Lemma issued_by_count_same self d :
  issued_by self d -> count_requests self d = length d.
Proof.
  unfold issued_by, count_requests. induction 1 as [|ev d Hev _ IH]; [done|].
  simpl. rewrite Hev. simpl. by rewrite IH.
Qed.

Lemma issued_by_count_other self l d :
  issued_by l d -> l <> self -> count_requests self d = 0.
Proof.
  unfold issued_by, count_requests. intros Hd Hne.
  induction Hd as [|ev d Hev _ IH]; [done|].
  simpl. destruct ev as [l' m u k|l']; [|done]. simpl in *.
  apply Nat.eqb_eq in Hev as ->.
  by destruct (Nat.eqb_spec l self).
Qed.

Lemma issued_by_no_auth l d : issued_by l d -> count_auth d = 0.
Proof.
  unfold issued_by, count_auth. induction 1 as [|ev d Hev _ IH]; [done|].
  simpl. by destruct ev.
Qed.

Lemma new_events_app st st' d :
  trace st' = trace st ++ d -> new_events st st' = d.
Proof. intros H. unfold new_events. by rewrite H, drop_app_length. Qed.

Lemma attr_same_objects st st' v name :
  objects st' = objects st -> attr st' v name = attr st v name.
Proof. intros H. unfold attr. by rewrite H. Qed.

Lemma isinstance_same_objects st st' v c :
  objects st' = objects st -> isinstance st' v c = isinstance st v c.
Proof. intros H. unfold isinstance. by rewrite H. Qed.

Lemma Application_request_ok st self m b e kw r st' :
  Application_request transport self m b e kw st = (Ok r, st') ->
  is_Some (attr st (VObj self) "s")
  /\ objects st' = objects st
  /\ trace st' = trace st ++ [EvRequest self m (b +:+ e) kw].
Proof.
  intros H. pose proof (Application_request_frame _ _ _ _ _ _ _ _ H)
    as [Ho [[_ ?]|Ht]]; [done|].
  split; [|done]. revert H. unfold Application_request, getattr. run_monad.
  by destruct (attr st (VObj self) "s").
Qed.

Lemma Application_request_logged st self m b e kw r st' :
  is_Some (attr st (VObj self) "s") ->
  Application_request transport self m b e kw st = (r, st') ->
  objects st' = objects st
  /\ trace st' = trace st ++ [EvRequest self m (b +:+ e) kw].
Proof.
  intros [s Hs] H. pose proof (Application_request_frame _ _ _ _ _ _ _ _ H)
    as [Ho [[_ ->]|Ht]]; [|done].
  revert H. unfold Application_request, getattr, Session_request. run_monad.
  rewrite Hs. simpl.
  destruct s as [a|l|l]; simpl; try (intros [= <-]; done).
  destruct (sessions st !! l) as [x|]; simpl; [|intros [= <-]; done].
  destruct (transport _ _) as [[r0 jar] n]. intros [= -> <-]. done.
Qed.

Lemma call_auth_frame st a r st' :
  call_auth transport BeautifulSoup a st = (r, st') ->
  objects st' = objects st
  /\ ((st' = st /\ r = Raise (AttributeError "auth"))
      \/ exists l d, a = VObj l
           /\ isinstance st (VObj l) cls_CAS = true
           /\ trace st' = trace st ++ EvAuth l :: d
           /\ issued_by l d).
Proof.
  unfold call_auth. run_monad. simpl.
  destruct (isinstance st a cls_CAS) eqn:Hi; [|intros [= <- <-]; auto].
  destruct a as [x|l|l]; try (intros [= <- <-]; auto).
  intros H. apply CAS_auth_frame in H as [Ho (d & Ht & Hd & _)].
  split; [done|]. right. by exists l, d.
Qed.

(** C1 (as the code has it): a request through a protected client
    first issues the request. A response whose URL is not on the
    authentication domain is returned as it is, with no login. For a
    response on the authentication domain [auth] is invoked once; if it
    returns normally the request is issued exactly once more and that
    result is returned without a further check; if it raises, or the
    client has no authentication service, the error is the result and
    nothing is retried. In every case the client issues at most two
    requests and enters [auth] at most once. *)
Theorem protected_request_protocol st self m b e kw :
  isinstance st (VObj self) cls_ProtectedApplication = true ->
  let request := Application_request transport self m b e kw in
  let run :=
    ProtectedApplication_request transport BeautifulSoup self m b e kw st in
  let evs := new_events st (snd run) in
  count_requests self evs <= 2
  /\ count_auth evs <= 1
  /\ match request st with
     | (Raise ex, st1) => run = (Raise ex, st1) /\ count_auth evs = 0
     | (Ok r, st1) =>
         if contains "cas.ucdavis" (url r) then
           match attr st1 (VObj self) "auth_service" with
           | None =>
               run = (Raise (AttributeError "auth_service"), st1)
               /\ count_auth evs = 0 /\ count_requests self evs = 1
           | Some a =>
               match call_auth transport BeautifulSoup a st1 with
               | (Ok _, st2) =>
                   run = request st2
                   /\ count_auth evs = 1 /\ count_requests self evs = 2
               | (Raise ex, st2) =>
                   run = (Raise ex, st2) /\ count_requests self evs = 1
               end
           end
         else
           run = (Ok r, st1)
           /\ count_auth evs = 0 /\ count_requests self evs = 1
     end.
Proof.
  intros Hself request run evs.
  assert (count_requests self [EvRequest self m (b +:+ e) kw] = 1) as Hone.
  { unfold count_requests. simpl. by rewrite Nat.eqb_refl. }
  unfold evs, run, ProtectedApplication_request. run_monad.
  fold request.
  destruct (request st) as [[r|ex] st1] eqn:H1; simpl.
  2:{ pose proof (Application_request_only _ _ _ _ _ _ _ _ H1)
        as [_ (d & Ht & Hd & Hl)].
      rewrite (new_events_app _ _ _ Ht).
      rewrite (issued_by_count_same _ _ Hd), (issued_by_no_auth _ _ Hd).
      repeat split; lia. }
  apply Application_request_ok in H1 as (Hs & Ho1 & Ht1).
  destruct (contains "cas.ucdavis" (url r)) eqn:Hurl; simpl.
  2:{ rewrite (new_events_app _ _ _ Ht1), Hone.
      change (count_auth [_]) with 0. repeat split; lia. }
  unfold getattr.
  destruct (attr st1 (VObj self) "auth_service") as [a|]; simpl.
  2:{ rewrite (new_events_app _ _ _ Ht1), Hone.
      change (count_auth [_]) with 0. repeat split; lia. }
  destruct (call_auth transport BeautifulSoup a st1) as [[[]|ex] st2] eqn:H2;
    apply call_auth_frame in H2 as [Ho2 Hcases]; simpl.
  - destruct Hcases as [[_ ?]|(l & d & -> & Hcas & Ht2 & Hd)]; [done|].
    assert (l <> self) as Hne.
    { intros ->. revert Hcas Hself.
      rewrite <- (isinstance_same_objects st st1 (VObj self)) by done.
      unfold isinstance.
      destruct (objects st1 !! self) as [o|]; [|intros; discriminate].
      intros Hc. rewrite (CAS_not_Protected _ Hc). discriminate. }
    destruct (request st2) as [r3 st3] eqn:H3.
    apply Application_request_logged in H3 as [_ Ht3].
    2:{ rewrite (attr_same_objects st st2) by congruence. done. }
    simpl.
    assert (new_events st st3
            = [EvRequest self m (b +:+ e) kw] ++ [EvAuth l] ++ d
              ++ [EvRequest self m (b +:+ e) kw]) as ->.
    { apply new_events_app. rewrite Ht3, Ht2, Ht1.
      rewrite <- !app_assoc. done. }
    rewrite !count_requests_app, !count_auth_app, Hone.
    rewrite (issued_by_count_other _ _ _ Hd Hne), (issued_by_no_auth _ _ Hd).
    change (count_auth [EvRequest self m (b +:+ e) kw]) with 0.
    change (count_auth [EvAuth l]) with 1.
    change (count_requests self [EvAuth l]) with 0.
    repeat split; lia.
  - destruct Hcases as [[-> _]|(l & d & -> & Hcas & Ht2 & Hd)].
    + rewrite (new_events_app _ _ _ Ht1), Hone.
      change (count_auth [_]) with 0. repeat split; lia.
    + assert (l <> self) as Hne.
      { intros ->. revert Hcas Hself.
        rewrite <- (isinstance_same_objects st st1 (VObj self)) by done.
        unfold isinstance.
        destruct (objects st1 !! self) as [o|]; [|intros; discriminate].
        intros Hc. rewrite (CAS_not_Protected _ Hc). discriminate. }
      assert (new_events st st2
              = [EvRequest self m (b +:+ e) kw] ++ [EvAuth l] ++ d) as ->.
      { apply new_events_app. rewrite Ht2, Ht1.
        rewrite <- !app_assoc. done. }
      rewrite !count_requests_app, !count_auth_app, Hone.
      rewrite (issued_by_count_other _ _ _ Hd Hne), (issued_by_no_auth _ _ Hd).
      change (count_auth [EvRequest self m (b +:+ e) kw]) with 0.
      change (count_auth [EvAuth l]) with 1.
      change (count_requests self [EvAuth l]) with 0.
      repeat split; lia.
Qed.

(** **** Construction *)

Lemma alter_last {A} (f : A -> A) (l : list A) (x : A) :
  alter f (length l) (l ++ [x]) = l ++ [f x].
Proof.
  induction l as [|y l IH]; [done|].
  change (y :: alter f (length l) (l ++ [x]) = y :: l ++ [f x]).
  by rewrite IH.
Qed.

Lemma lookup_last {A} (l : list A) (x : A) :
  (l ++ [x]) !! length l = Some x.
Proof. induction l as [|y l IH]; simpl; done. Qed.

Lemma attr_new_object (objs : list object) ss (n : NetSt) tr o name :
  attr (mkState (objs ++ [o]) ss n tr) (VObj (length objs)) name
  = ob_attrs o !! name.
Proof. unfold attr. cbn [objects]. by rewrite lookup_last. Qed.

Lemma isinstance_allocated st c v d :
  valid_value st v = true ->
  isinstance (allocated st c) v d = isinstance st v d.
Proof.
  destruct v as [a|l|l]; simpl; try done.
  rewrite bool_decide_eq_true. intros Hl. by rewrite lookup_app_l.
Qed.

Lemma attr_allocated st c v name :
  valid_value st v = true ->
  attr (allocated st c) v name = attr st v name.
Proof.
  destruct v as [a|l|l]; simpl; try done.
  rewrite bool_decide_eq_true. intros Hl. unfold attr. simpl.
  by rewrite lookup_app_l.
Qed.

(** [Application.__init__] on a new object, shared case. *)
Lemma Application_init_shared st c v s :
  valid_value st v = true ->
  truthy v = true ->
  isinstance st v cls_Application = true ->
  attr st v "s" = Some s ->
  Application_init default_headers (length (objects st)) v (allocated st c)
    = (Ok tt, with_session st st c s).
Proof.
  intros Hv Ht Hi Hs. unfold Application_init. rewrite Ht. run_monad.
  rewrite isinstance_allocated, Hi by done. unfold getattr.
  rewrite attr_allocated, Hs by done. unfold setattr, modify. simpl.
  by rewrite alter_last.
Qed.

(** [Application.__init__] on a new object, rejected argument. *)
Lemma Application_init_rejected st c v :
  valid_value st v = true ->
  truthy v = true ->
  isinstance st v cls_Application = false ->
  Application_init default_headers (length (objects st)) v (allocated st c)
    = (Raise (ValueError "shared_app does not derive from Application"),
       allocated st c).
Proof.
  intros Hv Ht Hi. unfold Application_init. rewrite Ht. run_monad.
  by rewrite isinstance_allocated, Hi.
Qed.

(** [Application.__init__] on a new object, no (or a false) argument. *)
Lemma Application_init_fresh st c v :
  truthy v = false ->
  Application_init default_headers (length (objects st)) v (allocated st c)
    = (Ok tt,
       with_session st
         (mkState (objects st) (sessions st ++ [fresh_session default_headers]) (net st) (trace st))
         c (VSess (length (sessions st)))).
Proof.
  intros Ht. unfold Application_init. rewrite Ht. run_monad.
  unfold new_Session, setattr, modify, getattr, attr. simpl.
  rewrite alter_last. simpl. rewrite lookup_last. simpl.
  rewrite lookup_insert_eq. simpl. rewrite alter_last. done.
Qed.

(** C5 (as the code has it): a [shared_app] that is true in a boolean
    context and is not an instance of [Application] (or of a subclass)
    makes construction fail with [ValueError]; no session is created
    and the new object has no session attribute. The same holds for
    the constructor of a protected client. *)
Theorem incompatible_shared_app_is_rejected st c v u p :
  valid_value st v = true ->
  truthy v = true ->
  isinstance st v cls_Application = false ->
  let err := ValueError "shared_app does not derive from Application" in
  let st' := allocated st c in
  Application_new default_headers c v st = (Raise err, st')
  /\ ProtectedApplication_new default_headers c u p v st = (Raise err, st')
  /\ sessions st' = sessions st
  /\ attr st' (VObj (length (objects st))) "s" = None.
Proof.
  intros Hv Ht Hi err st'.
  pose proof (Application_init_rejected st c v Hv Ht Hi) as Hinit.
  fold err in Hinit. fold st' in Hinit.
  split; [|split; [|split]].
  - unfold Application_new, new_object. run_monad. fold (allocated st c).
    fold st'. by rewrite Hinit.
  - unfold ProtectedApplication_new, ProtectedApplication_init, new_object.
    run_monad. fold (allocated st c). fold st'. by rewrite Hinit.
  - done.
  - unfold st', allocated. by rewrite attr_new_object.
Qed.

Lemma alter_middle {A} (f : A -> A) (l k : list A) (x : A) :
  alter f (length l) (l ++ x :: k) = l ++ f x :: k.
Proof.
  induction l as [|y l IH]; [done|].
  change (y :: alter f (length l) (l ++ x :: k) = y :: l ++ f x :: k).
  by rewrite IH.
Qed.

Lemma lookup_after_middle {A} (l k : list A) (x y : A) :
  (l ++ x :: y :: k) !! S (length l) = Some y.
Proof. induction l as [|z l IH]; simpl; done. Qed.

(** [Application.__init__] on a new object either fails or leaves it
    with the session attribute alone. *)
Lemma Application_init_new_object st c v st1 :
  valid_value st v = true ->
  Application_init default_headers (length (objects st)) v (allocated st c)
    = (Ok tt, st1) ->
  exists stS s, st1 = with_session st stS c s.
Proof.
  intros Hv. destruct (truthy v) eqn:Ht.
  - destruct (isinstance st v cls_Application) eqn:Hi.
    + destruct (attr st v "s") as [s|] eqn:Hs.
      * rewrite (Application_init_shared st c v s) by done.
        intros [= <-]. eauto.
      * unfold Application_init. rewrite Ht. run_monad.
        rewrite isinstance_allocated, Hi by done. unfold getattr.
        rewrite attr_allocated, Hs by done. done.
    + by rewrite (Application_init_rejected st c v).
  - rewrite (Application_init_fresh st c v) by done.
    intros [= <-]. eauto.
Qed.

(** Two requests in a row by clients that hold one session. *)
Lemma shared_session_requests_chain
    st' l x X Y m1 b1 e1 k1 m2 b2 e2 k2 r1 jar1 n1 r2 jar2 n2 :
  attr st' (VObj X) "s" = Some (VSess l) ->
  attr st' (VObj Y) "s" = Some (VSess l) ->
  sessions st' !! l = Some x ->
  transport (net st') (mkSent m1 (b1 +:+ e1) k1 (headers x) (cookies x))
    = (r1, jar1, n1) ->
  transport n1 (mkSent m2 (b2 +:+ e2) k2 (headers x) jar1) = (r2, jar2, n2) ->
  exists st1 st2,
    Application_request transport X m1 b1 e1 k1 st' = (r1, st1)
    /\ Application_request transport Y m2 b2 e2 k2 st1 = (r2, st2)
    /\ sessions st2 !! l = Some (mkSession (headers x) jar2).
Proof.
  intros HX HY Hx H1 H2.
  assert (l < length (sessions st')) as Hl by (by eapply lookup_lt_Some).
  set (st1 := exchanged st' l x jar1 n1 [EvRequest X m1 (b1 +:+ e1) k1]).
  assert (sessions st1 !! l = Some (mkSession (headers x) jar1)) as Hx1
    by (by apply list_lookup_insert_eq).
  exists st1,
    (exchanged st1 l (mkSession (headers x) jar1) jar2 n2
       [EvRequest Y m2 (b2 +:+ e2) k2]).
  split; [|split].
  - rewrite (Application_request_run st' X m1 b1 e1 k1 l x HX Hx).
    by rewrite H1.
  - rewrite (Application_request_run st1 Y m2 b2 e2 k2 l _ HY Hx1).
    cbn [net st1 exchanged headers cookies]. by rewrite H2.
  - unfold st1. cbn [sessions exchanged headers].
    apply list_lookup_insert_eq. by rewrite length_insert.
Qed.

Lemma session_shared_intro st st' A B s :
  attr st' (VObj B) "s" = Some s ->
  attr st' (VObj A) "s" = Some s ->
  sessions st' = sessions st ->
  session_shared transport st st' A B s.
Proof.
  intros HB HA Hs. split; [done|]. split; [done|]. split; [done|].
  intros l x X Y m1 b1 e1 k1 m2 b2 e2 k2 r1 jar1 n1 r2 jar2 n2
    -> Hx HX HY H1 H2.
  assert (forall Z, Z ∈ [A; B] -> attr st' (VObj Z) "s" = Some (VSess l))
    as Hattr.
  { intros Z HZ. apply elem_of_cons in HZ as [->|HZ]; [done|].
    apply list_elem_of_singleton in HZ as ->. done. }
  eapply shared_session_requests_chain; eauto. by rewrite Hs.
Qed.

Lemma session_fresh_intro st st' B :
  attr st' (VObj B) "s" = Some (VSess (length (sessions st))) ->
  sessions st' = sessions st ++ [fresh_session default_headers] ->
  session_fresh st st' B.
Proof.
  intros HB Hs. exists (fresh_session default_headers).
  split; [done|]. split; [by apply lookup_ge_None|].
  split; [rewrite Hs, length_app; simpl; lia|].
  split; [rewrite Hs; apply lookup_last|].
  split; [|done].
  unfold fresh_session. simpl. apply lookup_union_Some_l.
  apply lookup_singleton_eq.
Qed.

Lemma client_kept_with_session st (stS : State NetSt) c s :
  client_kept st stS s (with_session st stS c s).
Proof.
  unfold client_kept, with_session. cbn [sessions net objects].
  split; [done|]. split; [done|].
  split; [rewrite length_app; simpl; lia|].
  split; [rewrite attr_new_object; apply lookup_singleton_eq|].
  intros A name HA. unfold attr. cbn [objects]. by rewrite lookup_app_l.
Qed.

(** Constructing the authentication service on an existing client adds
    one object and nothing else. *)
Lemma CAS_new_adds_one_object (stX stY : State NetSt) u p v r :
  truthy v = true ->
  CAS_new default_headers u p v stX = (r, stY) ->
  sessions stY = sessions stX
  /\ net stY = net stX
  /\ exists o, objects stY = objects stX ++ [o].
Proof.
  intros Ht. unfold CAS_new, CAS_init, new_object, Application_init.
  rewrite Ht. run_monad. unfold getattr, setattr, modify.
  cbn [objects sessions net trace].
  destruct (isinstance _ v cls_Application).
  - destruct (attr _ v "s") as [s|].
    + cbn [objects sessions net trace]. rewrite !alter_last.
      intros [= <- <-]. cbn [objects sessions net]. eauto.
    + intros [= <- <-]. cbn [objects sessions net]. eauto.
  - intros [= <- <-]. cbn [objects sessions net]. eauto.
Qed.

Lemma CAS_new_keeps_client st (stS stX stY : State NetSt) s u p r :
  client_kept st stS s stX ->
  CAS_new default_headers u p (VObj (length (objects st))) stX = (r, stY) ->
  client_kept st stS s stY.
Proof.
  intros (Hs & Hn & Hlen & HB & HA) Hnew.
  apply CAS_new_adds_one_object in Hnew as (Hs' & Hn' & o & Ho); [|done].
  unfold client_kept, attr in *. rewrite Hs', Hn', Ho.
  split; [done|]. split; [done|].
  split; [rewrite length_app; lia|]. split.
  - by rewrite lookup_app_l.
  - intros A name Hlt. rewrite lookup_app_l by lia. by apply HA.
Qed.

Lemma setattr_keeps_client st (stS stX : State NetSt) s name v :
  name <> "s" ->
  client_kept st stS s stX ->
  client_kept st stS s (snd (setattr (length (objects st)) name v stX)).
Proof.
  intros Hname (Hs & Hn & Hlen & HB & HA).
  destruct (lookup_lt_is_Some_2 (objects stX) (length (objects st)) Hlen)
    as [o Ho].
  rewrite (attr_of_object stX _ o "s" Ho) in HB.
  unfold client_kept, setattr, modify. cbn [snd sessions net objects].
  split; [done|]. split; [done|].
  split; [by rewrite length_alter|]. split.
  - rewrite (attr_of_object _ _
               (mkObject (ob_class o) (<[name := v]> (ob_attrs o)))).
    + cbn [ob_attrs]. by rewrite lookup_insert_ne.
    + cbn [objects]. etrans; [apply list_lookup_alter_eq|].
      transitivity
        ((fun o => mkObject (ob_class o) (<[name := v]> (ob_attrs o)))
           <$> Some o); [f_equal; exact Ho | done].
  - intros A name' Hlt. rewrite <- (HA A name' Hlt).
    unfold attr. cbn [objects].
    f_equal. apply list_lookup_alter_ne. lia.
Qed.

(** What [ProtectedApplication.__init__] does after the constructor of
    the base class leaves the client's session alone. *)
Lemma ProtectedApplication_new_keeps_client st c u p sh self st' :
  valid_value st sh = true ->
  ProtectedApplication_new default_headers c u p sh st = (Ok self, st') ->
  self = length (objects st)
  /\ exists stS s,
       Application_init default_headers (length (objects st)) sh
         (allocated st c) = (Ok tt, with_session st stS c s)
       /\ client_kept st stS s st'.
Proof.
  intros Hv.
  unfold ProtectedApplication_new, ProtectedApplication_init, new_object.
  run_monad. fold (allocated st c).
  destruct (Application_init default_headers (length (objects st)) sh
              (allocated st c)) as [[[]|ex] st1] eqn:Hinit; [|done].
  destruct (Application_init_new_object _ _ _ _ Hv Hinit) as (stS & s & ->).
  pose proof (client_kept_with_session st stS c s) as K1.
  set (st1 := with_session st stS c s) in *.
  assert (forall stX, client_kept st stS s stX ->
            forall r stY,
              (if truthy u && truthy p
               then
                 (fun st0 =>
                    let (r0, st2) :=
                      CAS_new default_headers u p
                        (VObj (length (objects st))) st0 in
                    match r0 with
                    | Ok a =>
                        setattr (length (objects st)) "auth_service"
                          (VObj a) st2
                    | Raise e => (Raise e, st2)
                    end)
               else fun st0 => (Ok tt, st0)) stX = (r, stY) ->
              client_kept st stS s stY) as Hcred.
  { intros stX KX r stY. destruct (truthy u && truthy p).
    - destruct (CAS_new default_headers u p _ stX) as [[a|ex] st2] eqn:Hnew;
        pose proof (CAS_new_keeps_client _ _ _ _ _ _ _ _ KX Hnew) as K2.
      + intros H.
        pose proof (setattr_keeps_client st stS st2 s "auth_service" (VObj a)
                      ltac:(discriminate) K2) as K3.
        by rewrite H in K3.
      + by intros [= _ <-].
    - by intros [= _ <-]. }
  cbn [fst snd].
  destruct (isinstance st1 sh cls_ProtectedApplication).
  - unfold getattr.
    destruct (attr st1 sh "username") as [u'|]; [|done].
    destruct (attr st1 sh "password") as [p'|]; [|done].
    destruct (CAS_new default_headers u' p' _ st1) as [[a|ex] st2] eqn:Hnew;
      pose proof (CAS_new_keeps_client _ _ _ _ _ _ _ _ K1 Hnew) as K2;
      [|done].
    pose proof (setattr_keeps_client st stS st2 s "auth_service" (VObj a)
                  ltac:(discriminate) K2) as K3.
    destruct (setattr (length (objects st)) "auth_service" (VObj a) st2)
      as [[[]|ex] st3] eqn:Hset; [|done].
    cbn [snd] in K3.
    match goal with
    | |- (let (_, _) := ?f st3 in _) = _ -> _ =>
        destruct (f st3) as [[[]|ex] st4] eqn:Hrest; [|done]
    end.
    intros [= <- <-]. split; [done|]. exists stS, s. split; [done|].
    by eapply Hcred.
  - match goal with
    | |- (let (_, _) := ?f st1 in _) = _ -> _ =>
        destruct (f st1) as [[[]|ex] st4] eqn:Hrest; [|done]
    end.
    intros [= <- <-]. split; [done|]. exists stS, s. split; [done|].
    by eapply Hcred.
Qed.

(** C6: a client B built with [shared_app=A], A being an instance of
    [Application] with a session, holds the very session reference of
    A and no new session is created; hence, whichever of the two
    issues a request, the other one's next request is sent with the
    cookie jar that exchange left behind. This holds for each of the
    three constructors: of [Application], of [CAS] and, whenever it
    returns, of [ProtectedApplication]. Built without [shared_app], a
    client of any of the three gets a new session of its own whose
    headers carry the fixed User-Agent. *)
Theorem shared_app_session_is_aliased st c u p :
  let B := length (objects st) in
  (forall A s,
     valid_value st (VObj A) = true ->
     isinstance st (VObj A) cls_Application = true ->
     attr st (VObj A) "s" = Some s ->
     (exists st',
        Application_new default_headers c (VObj A) st = (Ok B, st')
        /\ session_shared transport st st' A B s)
     /\ (exists st',
           CAS_new default_headers u p (VObj A) st = (Ok B, st')
           /\ session_shared transport st st' A B s)
     /\ (forall self st',
           ProtectedApplication_new default_headers c u p (VObj A) st
             = (Ok self, st') ->
           self = B /\ session_shared transport st st' A B s))
  /\ (exists st',
        Application_new default_headers c (VAtom ANone) st = (Ok B, st')
        /\ session_fresh st st' B)
  /\ (exists st',
        CAS_new default_headers u p (VAtom ANone) st = (Ok B, st')
        /\ session_fresh st st' B)
  /\ (forall self st',
        ProtectedApplication_new default_headers c u p (VAtom ANone) st
          = (Ok self, st') ->
        self = B /\ session_fresh st st' B).
Proof.
  intros B. split; [|split; [|split]].
  - intros A s Hv Hi Hs.
    assert (A < length (objects st)) as HA
      by (by apply bool_decide_eq_true in Hv).
    split; [|split].
    + exists (with_session st st c s). split.
      { unfold Application_new, new_object. run_monad.
        fold (allocated st c).
        by rewrite (Application_init_shared st c (VObj A) s). }
      destruct (client_kept_with_session st st c s) as (_ & _ & _ & HB & Hold).
      apply session_shared_intro; [done| |done].
      by rewrite Hold.
    + eexists. split.
      { unfold CAS_new, CAS_init, new_object. run_monad.
        fold (allocated st cls_CAS).
        rewrite (Application_init_shared st cls_CAS (VObj A) s) by done.
        unfold setattr, modify, with_session.
        cbn [objects sessions net trace]. rewrite !alter_last.
        cbn [ob_class ob_attrs]. reflexivity. }
      apply session_shared_intro; [| |done].
      * rewrite attr_new_object. cbn [ob_attrs].
        by rewrite !lookup_insert_ne, lookup_singleton_eq.
      * unfold attr in *. cbn [objects]. by rewrite lookup_app_l.
    + intros self st' Hnew.
      apply ProtectedApplication_new_keeps_client in Hnew
        as (-> & stS & s' & Hinit & K); [|done].
      rewrite (Application_init_shared st c (VObj A) s) in Hinit by done.
      assert (with_session st st c s = with_session st stS c s') as Hst
        by congruence.
      assert (s' = s) as ->.
      { apply (f_equal (fun z => attr z (VObj B) "s")) in Hst.
        unfold with_session in Hst. rewrite !attr_new_object in Hst.
        cbn [ob_attrs] in Hst. rewrite !lookup_singleton_eq in Hst.
        congruence. }
      apply (f_equal sessions) in Hst. cbn [sessions with_session] in Hst.
      destruct K as (Ks & _ & _ & KB & Kold).
      split; [done|]. apply session_shared_intro; [done| |congruence].
      by rewrite Kold.
  - eexists. split.
    { unfold Application_new, new_object. run_monad.
      fold (allocated st c). by rewrite Application_init_fresh. }
    apply session_fresh_intro; [|done].
    unfold with_session. rewrite attr_new_object. apply lookup_singleton_eq.
  - eexists. split.
    { unfold CAS_new, CAS_init, new_object. run_monad.
      fold (allocated st cls_CAS).
      rewrite (Application_init_fresh st cls_CAS (VAtom ANone)) by done.
      unfold setattr, modify, with_session.
      cbn [objects sessions net trace]. rewrite !alter_last.
      cbn [ob_class ob_attrs]. reflexivity. }
    apply session_fresh_intro; [|done].
    rewrite attr_new_object. cbn [ob_attrs].
    by rewrite !lookup_insert_ne, lookup_singleton_eq.
  - intros self st' Hnew.
    apply ProtectedApplication_new_keeps_client in Hnew
      as (-> & stS & s' & Hinit & K); [|done].
    rewrite (Application_init_fresh st c (VAtom ANone)) in Hinit by done.
    match type of Hinit with
    | (_, ?x) = (_, ?y) => assert (x = y) as Hst by congruence
    end.
    assert (s' = VSess (length (sessions st))) as ->.
    { apply (f_equal (fun z => attr z (VObj B) "s")) in Hst.
      unfold with_session in Hst. rewrite !attr_new_object in Hst.
      cbn [ob_attrs] in Hst. rewrite !lookup_singleton_eq in Hst.
      congruence. }
    apply (f_equal sessions) in Hst. cbn [sessions with_session] in Hst.
    destruct K as (Ks & _ & _ & KB & _).
    split; [done|]. apply session_fresh_intro; [done|congruence].
Qed.

(** C7: a protected client built without a true username and a true
    password, on a [shared_app] that is not a protected client, has no
    [auth_service]; as long as that is so, a request whose response
    comes back from the authentication domain fails with the
    attribute error after that single request, without entering
    [auth]. *)
Theorem no_credentials_means_no_auth_service st c u p sh self st' :
  valid_value st sh = true ->
  truthy u && truthy p = false ->
  isinstance st sh cls_ProtectedApplication = false ->
  ProtectedApplication_new default_headers c u p sh st = (Ok self, st') ->
  attr st' (VObj self) "auth_service" = None
  /\ forall st2 m b e kw r st3,
       attr st2 (VObj self) "auth_service" = None ->
       Application_request transport self m b e kw st2 = (Ok r, st3) ->
       contains "cas.ucdavis" (url r) = true ->
       ProtectedApplication_request transport BeautifulSoup self m b e kw st2
         = (Raise (AttributeError "auth_service"), st3)
       /\ new_events st2 st3 = [EvRequest self m (b +:+ e) kw]
       /\ count_auth (new_events st2 st3) = 0.
Proof.
  intros Hv Hcred Hi Hnew. split.
  - revert Hnew.
    unfold ProtectedApplication_new, ProtectedApplication_init, new_object.
    run_monad. fold (allocated st c). rewrite Hcred.
    destruct (truthy sh) eqn:Ht.
    + destruct (isinstance st sh cls_Application) eqn:Hia.
      * destruct (attr st sh "s") as [s|] eqn:Hs.
        -- rewrite (Application_init_shared st c sh s) by done. simpl.
           assert (isinstance (with_session st st c s) sh
                     cls_ProtectedApplication = false) as ->.
           { revert Hv Hi. destruct sh as [a|l|l]; simpl; try done.
             rewrite bool_decide_eq_true. intros Hl.
             by rewrite !lookup_app_l. }
           simpl. intros [= <- <-].
           unfold with_session. by rewrite attr_new_object.
        -- unfold Application_init. rewrite Ht. run_monad.
           rewrite isinstance_allocated, Hia by done. unfold getattr.
           rewrite attr_allocated, Hs by done. done.
      * by rewrite (Application_init_rejected st c sh).
    + rewrite (Application_init_fresh st c sh) by done. simpl.
      assert (forall st1 s, isinstance (with_session st st1 c s) sh
                cls_ProtectedApplication = false) as ->.
      { intros st1 s. revert Hv Hi. by destruct sh as [a|l|l]. }
      simpl. intros [= <- <-].
      unfold with_session. by rewrite attr_new_object.
  - intros st2 m b e kw r st3 Hnone Hreq Hurl.
    pose proof (Application_request_ok _ _ _ _ _ _ _ _ Hreq)
      as (_ & Ho & Ht).
    split; [|split].
    + unfold ProtectedApplication_request. run_monad.
      rewrite Hreq, Hurl. simpl. unfold getattr.
      by rewrite (attr_same_objects st2 st3), Hnone.
    + by apply new_events_app.
    + by rewrite (new_events_app _ _ _ Ht).
Qed.

End Properties.

(** ** The simulated deployment, run *)

Lemma Course_eq_iff_crn_and_term_witness :
  Course.eq
    (Course.mk (AInt 74382) Sim.fall_2014
       (PAtom (AStr "namea")) (PAtom (AStr "numbera")) (PAtom (AStr "sectiona"))
       (PAtom (AStr "titlea")) (PAtom (AStr "unitsa")) (PAtom (AStr "instructora"))
       (PAtom (AStr "subjecta")) (PAtom (AStr "ge_credita"))
       (PAtom (AStr "available_seatsa")) (PAtom (AStr "max_enrollmenta"))
       (PAtom (AStr "meetingsa")) (PAtom (AStr "descriptiona"))
       (PAtom (AStr "final_exama")) (PAtom (AStr "drop_timea")))
    (Course.mk (AInt 74382) (Term.mk (AStr "2014") Term.FALL_QUARTER)
       (PAtom (AStr "nameb")) (PAtom (AStr "numberb")) (PAtom (AStr "sectionb"))
       (PAtom (AStr "titleb")) (PAtom (AStr "unitsb")) (PAtom (AStr "instructorb"))
       (PAtom (AStr "subjectb")) (PAtom (AStr "ge_creditb"))
       (PAtom (AStr "available_seatsb")) (PAtom (AStr "max_enrollmentb"))
       (PAtom (AStr "meetingsb")) (PAtom (AStr "descriptionb"))
       (PAtom (AStr "final_examb")) (PAtom (AStr "drop_timeb")))
  = true.
Proof.
  apply (Course_eq_iff_crn_and_term
           (AInt 74382) Sim.fall_2014 (Sim.attrs_of "a") _
           (AInt 74382) (Term.mk (AStr "2014") Term.FALL_QUARTER)
           (Sim.attrs_of "b") _).
  - vm_compute. reflexivity.
  - vm_compute. reflexivity.
  - split; vm_compute; reflexivity.
Defined.

(** C2: on the store left by [ProtectedApplication("alice", "secret")],
    constructing a second protected client with [shared_app] set to the
    first one raises [AttributeError] on [shared_app.username], with or
    without explicit credentials: the first client keeps its credentials
    in its authentication service, not in attributes of its own. *)
Theorem shared_protected_app_has_no_username :
  let st := Sim.after_login_client "alice" "secret" in
  isinstance st (VObj 0) cls_ProtectedApplication = true
  /\ attr st (VObj 0) "username" = None
  /\ (exists a, attr st (VObj 0) "auth_service" = Some a
                /\ attr st a "username" = Some (Sim.str "alice")
                /\ attr st a "password" = Some (Sim.str "secret"))
  /\ fst (ProtectedApplication_new Sim.default_headers cls_ProtectedApplication
            Sim.none Sim.none (VObj 0) st)
     = Raise (AttributeError "username")
  /\ fst (ProtectedApplication_new Sim.default_headers cls_ProtectedApplication
            (Sim.str "bob") (Sim.str "pw") (VObj 0) st)
     = Raise (AttributeError "username").
Proof.
  cbv zeta. split; [|split; [|split; [|split]]].
  - vm_compute. reflexivity.
  - vm_compute. reflexivity.
  - exists (VObj 1). split; [|split]; vm_compute; reflexivity.
  - vm_compute. reflexivity.
  - vm_compute. reflexivity.
Qed.

(** C5, the claim as stated fails: the integer 0 is a supplied
    [shared_app] that is no [Application], yet construction succeeds and
    creates a session. *)
Lemma falsy_shared_app_is_accepted :
  let v := VAtom (AInt 0) in
  v <> VAtom ANone
  /\ isinstance Sim.st0 v cls_Application = false
  /\ exists st',
       Application_new Sim.default_headers cls_Application v Sim.st0
         = (Ok 0, st')
       /\ length (sessions st') = 1
       /\ attr st' (VObj 0) "s" = Some (VSess 0).
Proof.
  cbv zeta. split; [discriminate|]. split; [reflexivity|].
  eexists. split; [reflexivity|]. split; vm_compute; reflexivity.
Qed.

Lemma incompatible_shared_app_is_rejected_witness :
  Application_new Sim.default_headers cls_Application (VObj 0) Sim.st_foreign
  = (Raise (ValueError "shared_app does not derive from Application"),
     allocated Sim.st_foreign cls_Application).
Proof.
  apply (incompatible_shared_app_is_rejected Sim.default_headers
           Sim.st_foreign cls_Application (VObj 0) Sim.none Sim.none);
    vm_compute; reflexivity.
Defined.

Lemma protected_request_protocol_witness :
  let st := Sim.after_login_client "alice" "secret" in
  let run :=
    ProtectedApplication_request Sim.transport Sim.parser 0
      "get" Sim.site "/courses" ∅ st in
  count_requests 0 (new_events st (snd run)) <= 2
  /\ count_auth (new_events st (snd run)) <= 1.
Proof.
  cbv zeta.
  assert (isinstance (Sim.after_login_client "alice" "secret") (VObj 0)
            cls_ProtectedApplication = true) as Hself
    by (vm_compute; reflexivity).
  pose proof (protected_request_protocol Sim.transport Sim.parser
                (Sim.after_login_client "alice" "secret") 0
                "get" Sim.site "/courses" ∅ Hself) as H.
  cbv zeta in H. destruct H as (H2 & H1 & _). split; [exact H2 | exact H1].
Defined.

(** The specification's scenario: one redirect to the login service, a
    successful login, the retried request; two requests by the client
    and one login. *)
Example redirect_login_retry :
  let st := Sim.after_login_client "alice" "secret" in
  let run :=
    ProtectedApplication_request Sim.transport Sim.parser 0
      "get" Sim.site "/courses" ∅ st in
  fst run = Ok (mkResponse (Sim.site +:+ "/courses") "courses")
  /\ count_requests 0 (new_events st (snd run)) = 2
  /\ count_auth (new_events st (snd run)) = 1
  /\ count_posts (new_events st (snd run)) = 1.
Proof. cbv zeta. repeat split; vm_compute; reflexivity. Qed.

(** C1, the claim as stated fails: with a wrong password the first
    response comes from the authentication domain, [auth] is entered
    once and raises, and the original request is not issued again. *)
Lemma failed_login_is_not_retried :
  let st := Sim.after_login_client "alice" "wrong" in
  let request := Application_request Sim.transport 0 "get" Sim.site "/courses" ∅ in
  let run :=
    ProtectedApplication_request Sim.transport Sim.parser 0
      "get" Sim.site "/courses" ∅ st in
  isinstance st (VObj 0) cls_ProtectedApplication = true
  /\ (exists r, fst (request st) = Ok r /\ contains "cas.ucdavis" (url r) = true)
  /\ fst run = Raise InvalidLoginError
  /\ count_auth (new_events st (snd run)) = 1
  /\ count_requests 0 (new_events st (snd run)) = 1.
Proof.
  cbv zeta. split; [vm_compute; reflexivity|]. split.
  - eexists. split; vm_compute; reflexivity.
  - repeat split; vm_compute; reflexivity.
Qed.

Lemma auth_is_noop_when_already_logged_in_witness :
  let st := Sim.logged_in in
  let st' :=
    exchanged st 0 (Sim.session_at st 0) Sim.ticket_jar 3
      [EvAuth 1; EvRequest 1 "get" Sim.login_url ∅] in
  CAS_auth Sim.transport Sim.parser 1 st = (Ok tt, st')
  /\ count_posts (trace st') = count_posts (trace st).
Proof.
  cbv zeta.
  unshelve epose proof
    (auth_is_noop_when_already_logged_in Sim.transport Sim.parser
       Sim.logged_in 1 (Sim.object_at Sim.logged_in 1)
       "https://cas.ucdavis.edu" 0 (Sim.session_at Sim.logged_in 0)
       (mkResponse Sim.login_url Sim.success_page) Sim.ticket_jar 3
       _ _ _ _ _ _) as H;
    [vm_compute; reflexivity .. |].
  cbv zeta in H. destruct H as (Hrun & Hposts & _).
  split; [exact Hrun | exact Hposts].
Defined.

(** C4, the claim as stated fails: the login page carries the success
    marker and its GET sets a cookie; [auth] returns normally without a
    POST, and the session is not what it was. *)
Lemma auth_get_can_change_the_session :
  let st := Sim.after_login_client "alice" "secret" in
  let run := CAS_auth Sim.transport_welcome Sim.parser 1 st in
  contains SUCCESS_MARKER Sim.success_page = true
  /\ fst run = Ok tt
  /\ count_posts (new_events st (snd run)) = 0
  /\ cookies (Sim.session_at st 0) !! "JSESSIONID" = None
  /\ cookies (Sim.session_at (snd run) 0) !! "JSESSIONID" = Some "fresh"
  /\ sessions (snd run) <> sessions st.
Proof.
  cbv zeta. repeat split; try (vm_compute; reflexivity).
  intros Heq.
  apply (f_equal (fun ss : list Session =>
                    cookies (default (mkSession ∅ ∅) (ss !! 0)) !! "JSESSIONID"))
    in Heq.
  vm_compute in Heq. discriminate.
Qed.

Lemma auth_posts_collected_fields_and_credentials_witness :
  let st := Sim.after_login_client "alice" "secret" in
  CAS_auth Sim.transport Sim.parser 1 st
  = (Ok tt,
     exchanged st 0 (Sim.session_at st 0) Sim.ticket_jar 2
       [EvAuth 1;
        EvRequest 1 "get" Sim.login_url ∅;
        EvRequest 1 "post" Sim.login_url {[ "data" := KwDict Sim.example_data ]}]).
Proof.
  cbv zeta.
  unshelve epose proof
    (auth_posts_collected_fields_and_credentials
       Sim.transport Sim.parser
       (Sim.after_login_client "alice" "secret") 1
       (Sim.object_at (Sim.after_login_client "alice" "secret") 1)
       "https://cas.ucdavis.edu" 0
       (Sim.session_at (Sim.after_login_client "alice" "secret") 0)
       (mkResponse Sim.login_url Sim.login_page) ∅ 1
       Sim.login_form "/cas/login" (Sim.str "alice") (Sim.str "secret")
       (Ok (mkResponse Sim.login_url Sim.success_page))
       Sim.ticket_jar 2 _ _ _ _ _ _ _ _ _ _ _) as H;
    [vm_compute; reflexivity .. |].
  cbv zeta in H. destruct H as (Hrun & _).
  rewrite Hrun. vm_compute. reflexivity.
Defined.

(** C3, the claim as stated fails: the login page's form also holds a
    submit button with a name and a value; the POST carries that pair
    although it is no hidden field. *)
Lemma auth_posts_non_hidden_fields :
  let st := Sim.after_login_client "alice" "secret" in
  let form := Sim.login_form_with_button in
  let posted : gmap string value :=
    <["password" := Sim.str "secret"]>
      (<["username" := Sim.str "alice"]> (collect_fields (find_all_tags form))) in
  contains SUCCESS_MARKER Sim.login_page_with_button = false
  /\ soup_find_form "fm1" (Sim.parser Sim.login_page_with_button) = Some form
  /\ new_events st (snd (CAS_auth Sim.transport_button Sim.parser 1 st))
     = [EvAuth 1;
        EvRequest 1 "get" Sim.login_url ∅;
        EvRequest 1 "post" Sim.login_url {[ "data" := KwDict posted ]}]
  /\ posted !! "submit" = Some (Sim.str "LOGIN")
  /\ spec_login_data form (Sim.str "alice") (Sim.str "secret") !! "submit" = None
  /\ posted <> spec_login_data form (Sim.str "alice") (Sim.str "secret").
Proof.
  cbv zeta. repeat split; try (vm_compute; reflexivity).
  intros Heq.
  apply (f_equal (fun d : gmap string value => d !! "submit")) in Heq.
  vm_compute in Heq. discriminate.
Qed.

Lemma shared_app_session_is_aliased_witness :
  (exists st',
     Application_new Sim.default_headers cls_Application (VObj 0)
       Sim.after_plain_client = (Ok 1, st')
     /\ attr st' (VObj 1) "s" = Some (VSess 0)
     /\ attr st' (VObj 0) "s" = Some (VSess 0)
     /\ sessions st' = sessions Sim.after_plain_client)
  /\ (let run :=
        ProtectedApplication_new Sim.default_headers cls_ProtectedApplication
          (Sim.str "alice") (Sim.str "secret") (VObj 0)
          Sim.after_plain_client in
      fst run = Ok 1
      /\ attr (snd run) (VObj 1) "s" = Some (VSess 0)
      /\ attr (snd run) (VObj 0) "s" = Some (VSess 0)
      /\ sessions (snd run) = sessions Sim.after_plain_client).
Proof.
  pose proof (shared_app_session_is_aliased Sim.transport Sim.default_headers
                Sim.after_plain_client cls_ProtectedApplication
                (Sim.str "alice") (Sim.str "secret")) as Hprot.
  pose proof (shared_app_session_is_aliased Sim.transport Sim.default_headers
                Sim.after_plain_client cls_Application
                (Sim.str "alice") (Sim.str "secret")) as Happ.
  cbv zeta in Hprot, Happ.
  destruct Hprot as [Hprot _]. destruct Happ as [Happ _].
  unshelve epose proof (Happ 0 (VSess 0) _ _ _) as [H _];
    [vm_compute; reflexivity .. |].
  unshelve epose proof (Hprot 0 (VSess 0) _ _ _) as (_ & _ & H');
    [vm_compute; reflexivity .. |].
  split.
  - destruct H as (st' & Hnew & HB & HA & Hs & _).
    exists st'. repeat split; assumption.
  - cbv zeta.
    assert (fst (ProtectedApplication_new Sim.default_headers
                   cls_ProtectedApplication (Sim.str "alice")
                   (Sim.str "secret") (VObj 0) Sim.after_plain_client)
            = Ok 1) as Hfst by (vm_compute; reflexivity).
    split; [exact Hfst|].
    destruct (H' 1 _ (eq_trans (surjective_pairing _)
                        (f_equal (fun r => (r, _)) Hfst)))
      as (_ & HB & HA & Hs & _).
    repeat split; assumption.
Defined.

Lemma no_credentials_means_no_auth_service_witness :
  attr Sim.after_anonymous_client (VObj 0) "auth_service" = None
  /\ fst (ProtectedApplication_request Sim.transport Sim.parser 0
            "get" Sim.site "/courses" ∅ Sim.after_anonymous_client)
     = Raise (AttributeError "auth_service").
Proof.
  unshelve epose proof
    (no_credentials_means_no_auth_service Sim.transport
       Sim.default_headers Sim.parser Sim.st0 cls_ProtectedApplication
       Sim.none Sim.none Sim.none 0 Sim.after_anonymous_client _ _ _ _)
    as [Hnone Hreq];
    [vm_compute; reflexivity .. |].
  split; [exact Hnone|].
  unshelve epose proof
    (Hreq Sim.after_anonymous_client "get" Sim.site "/courses" ∅
       (mkResponse Sim.login_url Sim.login_page)
       (snd (Application_request Sim.transport 0 "get" Sim.site
               "/courses" ∅ Sim.after_anonymous_client)) _ _ _)
    as [Hrun _];
    [vm_compute; reflexivity .. |].
  rewrite Hrun. reflexivity.
Defined.

(** * Further properties *)

(** ** Terms *)

Lemma Session_value_inj (m1 m2 : Term.Session) :
  Term.value m1 = Term.value m2 -> m1 = m2.
Proof. destruct m1, m2; simpl; intros H; try done; discriminate. Qed.

Lemma string_length_app (s t : string) :
  String.length (s +:+ t) = String.length s + String.length t.
Proof.
  induction s as [|c s IH]; [done|].
  change (S (String.length (s +:+ t)) = S (String.length s + String.length t)).
  by rewrite IH.
Qed.

(** Two concatenations with suffixes of one length agree piecewise. *)
Lemma app_same_length_suffix (a b v w : string) :
  String.length v = String.length w ->
  a +:+ v = b +:+ w -> a = b /\ v = w.
Proof.
  intros Hlen. revert b. induction a as [|c a IH]; intros [|d b] Heq.
  - done.
  - exfalso. change (v = String d (b +:+ w)) in Heq.
    rewrite Heq in Hlen. simpl in Hlen. rewrite string_length_app in Hlen. lia.
  - exfalso. change (String c (a +:+ v) = w) in Heq.
    rewrite <- Heq in Hlen. simpl in Hlen. rewrite string_length_app in Hlen. lia.
  - change (String c (a +:+ v) = String d (b +:+ w)) in Heq.
    injection Heq as -> Heq. destruct (IH b Heq) as [-> ->]. done.
Qed.


Lemma Term_eq_is_equivalence_parts :
  (forall a, Term.eq a a = true)
  /\ (forall a b, Term.eq a b = true -> Term.eq b a = true)
  /\ (forall a b c,
        Term.eq a b = true -> Term.eq b c = true -> Term.eq a c = true).
Proof.
  unfold Term.eq. repeat split.
  - intros a. by rewrite String.eqb_refl, bool_decide_eq_true_2.
  - intros a b. rewrite !andb_true_iff, !String.eqb_eq, !bool_decide_eq_true.
    by intros [-> ->].
  - intros a b c.
    rewrite !andb_true_iff, !String.eqb_eq, !bool_decide_eq_true.
    by intros [-> ->] [-> ->].
Qed.

(** X2: equality of terms is an equivalence relation, although it
    identifies years of different types: it is reflexive, symmetric and
    transitive. *)
Theorem Term_eq_is_equivalence :
  (forall a, Term.eq a a = true)
  /\ (forall a b, Term.eq a b = true -> Term.eq b a = true)
  /\ (forall a b c,
        Term.eq a b = true -> Term.eq b c = true -> Term.eq a c = true).
Proof. exact Term_eq_is_equivalence_parts. Qed.

(** X3: two terms have the same [code] exactly when they compare
    equal. *)
Theorem Term_code_identifies_term (a b : Term.t) :
  Term.code a = Term.code b <-> Term.eq a b = true.
Proof.
  rewrite !Term_code_of_fields. unfold Term.eq.
  rewrite andb_true_iff, String.eqb_eq, bool_decide_eq_true. split.
  - intros [= Heq]. apply app_same_length_suffix in Heq as [Hy Hv].
    + split; [done | by apply Session_value_inj].
    + by rewrite !Session_value_length.
  - by intros [-> ->].
Qed.

(** X4: [str] of a term is the session's name in title case, with
    spaces for underscores, then a space and the year; the session part
    is as long as the member's name and holds no underscore. *)
Theorem Term_str_is_session_title_then_year :
  (forall t,
     Term.str t
     = Ok (Term.Session_str (Term.session t) +:+ " " +:+ py_str (Term.year t)))
  /\ (forall m,
        String.length (Term.Session_str m) = String.length (Term.name m)
        /\ contains "_" (Term.Session_str m) = false)
  /\ Term.str (Term.mk (AInt 2014) Term.SUMMER_SESSION_2)
     = Ok "Summer Session 2 2014".
Proof.
  split; [|split].
  - intros t. unfold Term.str, str_format. cbn.
    change (digit_of "0") with (Some 0). change (digit_of "1") with (Some 1).
    cbn. by rewrite append_nil_r.
  - intros m. by destruct m.
  - reflexivity.
Qed.

(** ** Courses *)

Lemma py_eq_refl (a : atom) : py_eq a a = true.
Proof.
  destruct a as [|[]|z|s]; unfold py_eq, atom_num; try reflexivity.
  - apply Z.eqb_refl.
  - apply String.eqb_refl.
Qed.

Lemma py_eq_sym (a b : atom) : py_eq a b = py_eq b a.
Proof.
  destruct a as [|[]|x|s], b as [|[]|y|t]; unfold py_eq, atom_num;
    try reflexivity; try apply Z.eqb_sym.
  apply String.eqb_sym.
Qed.

Lemma py_eq_trans (a b c : atom) :
  py_eq a b = true -> py_eq b c = true -> py_eq a c = true.
Proof.
  destruct a as [|[]|x|s], b as [|[]|y|t], c as [|[]|z|u];
    unfold py_eq, atom_num;
    rewrite ?Z.eqb_eq, ?String.eqb_eq; try congruence.
Qed.

(** X5: the constructor succeeds exactly when the keyword dictionary has
    all fourteen keys of [_attrs]; otherwise it raises [KeyError] for the
    first key of [_attrs] that is absent. Other keys are ignored. *)
Theorem Course_init_needs_every_attribute crn0 term0 attrs :
  match List.find (Course.missing attrs) Course._attrs with
  | Some k => Course.init crn0 term0 attrs = Raise (KeyError k)
  | None => exists c, Course.init crn0 term0 attrs = Ok c
  end.
Proof.
  unfold Course.init, Course.rbind, Course.getitem, Course._attrs,
    Course.missing.
  cbn [List.find].
  repeat match goal with
         | |- context [attrs !! ?k] => destruct (attrs !! k); [|done]
         end.
  eauto.
Qed.

(** X6: a course built by the constructor gives back, under each name of
    [_attrs], the value passed under that key, and [crn] and [term] as
    passed; none of these attributes hides a name of the class body,
    which the class goes on answering. *)
Theorem Course_init_stores_attributes crn0 term0 attrs c :
  Course.init crn0 term0 attrs = Ok c ->
  Course.getattr c "crn" = Ok (Course.AtomAttr crn0)
  /\ Course.getattr c "term" = Ok (Course.TermAttr term0)
  /\ (forall k, k ∈ Course._attrs ->
        exists v, attrs !! k = Some v
                  /\ Course.getattr c k = Ok (Course.ObjAttr v))
  /\ (forall k, k ∈ Course.class_namespace ->
        Course.getattr c k = Ok (Course.ClassAttr k)).
Proof.
  unfold Course.init, Course.rbind, Course.getitem.
  repeat match goal with
         | |- context [attrs !! ?k] =>
             let H := fresh "H" in destruct (attrs !! k) eqn:H; [|done]
         end.
  intros [= <-]. split; [done|]. split; [done|]. split.
  - intros k. unfold Course._attrs. rewrite !elem_of_cons, elem_of_nil.
    intros Hk.
    repeat (destruct Hk as [->|Hk]; [eexists; split; [eassumption|reflexivity]|]).
    done.
  - intros k. unfold Course.class_namespace.
    rewrite !elem_of_cons, elem_of_nil. intros Hk.
    repeat (destruct Hk as [->|Hk]; [reflexivity|]). done.
Qed.

(** X7: [str] of a course never yields a string: it reads the
    attributes [course_name] and [course_title], which no constructor
    assigns, and so raises [AttributeError] for every course. *)
Theorem Course_str_always_raises render (c : Course.t) :
  Course.str render c = Raise (AttributeError "course_name").
Proof. reflexivity. Qed.

(** X8: [repr] of a course is [<Course crn (<Term code>)>], with the
    reference number rendered by [str] and the term by its own [repr]. *)
Theorem Course_repr_embeds_term_repr (c : Course.t) :
  Term.repr (Course.term c)
  = Ok ("<Term " +:+ py_str (Term.year (Course.term c))
        +:+ Term.value (Term.session (Course.term c)) +:+ ">")
  /\ Course.repr c
     = Ok ("<Course " +:+ py_str (Course.crn c) +:+ " (<Term "
           +:+ py_str (Term.year (Course.term c))
           +:+ Term.value (Term.session (Course.term c)) +:+ ">)>").
Proof.
  assert (forall a b c : string, (a +:+ b) +:+ c = a +:+ (b +:+ c)) as Hassoc.
  { intros a b c0. induction a as [|x a IH]; [done|].
    change (String x ((a +:+ b) +:+ c0) = String x (a +:+ (b +:+ c0))).
    by rewrite IH. }
  assert (Term.repr (Course.term c)
          = Ok ("<Term " +:+ py_str (Term.year (Course.term c))
                +:+ Term.value (Term.session (Course.term c)) +:+ ">")) as Hrepr.
  { unfold Term.repr. rewrite Term_code_of_fields.
    unfold str_format. cbn. by rewrite Hassoc. }
  split; [exact Hrepr|].
  unfold Course.repr. rewrite Hrepr. unfold Course.rbind, str_format. cbn.
  do 2 f_equal. rewrite !Hassoc. done.
Qed.

(** X9: equality of courses is an equivalence relation. *)
Theorem Course_eq_is_equivalence :
  (forall a, Course.eq a a = true)
  /\ (forall a b, Course.eq a b = true -> Course.eq b a = true)
  /\ (forall a b c,
        Course.eq a b = true -> Course.eq b c = true -> Course.eq a c = true).
Proof.
  destruct Term_eq_is_equivalence_parts as (Hr & Hs & Ht).
  unfold Course.eq. repeat split.
  - intros a. by rewrite py_eq_refl, Hr.
  - intros a b. rewrite !andb_true_iff. intros [H1 H2].
    by rewrite py_eq_sym, H1, (Hs _ _ H2).
  - intros a b c. rewrite !andb_true_iff. intros [H1 H2] [H3 H4].
    by rewrite (py_eq_trans _ _ _ H1 H3), (Ht _ _ _ H2 H4).
Qed.

(** ** Applications *)

Lemma Protected_is_Application (c : class) :
  issubclass c cls_ProtectedApplication = true ->
  issubclass c cls_Application = true.
Proof.
  unfold issubclass. rewrite !bool_decide_eq_true.
  induction c as [| | | |n p IH b]; simpl;
    rewrite ?elem_of_cons, ?elem_of_nil; intuition discriminate.
Qed.

Lemma sessions_kept_refl {NetSt} (st : State NetSt) : sessions_kept st st.
Proof. by split. Qed.

Lemma sessions_kept_trans {NetSt} (st1 st2 st3 : State NetSt) :
  sessions_kept st1 st2 -> sessions_kept st2 st3 -> sessions_kept st1 st3.
Proof.
  intros [Hl1 Hh1] [Hl2 Hh2]. split; [congruence|].
  intros l. by rewrite Hh2, Hh1.
Qed.

Section MoreProperties.

Context {NetSt : Type}.
Variable transport :
  NetSt -> Sent -> result Response * gmap string string * NetSt.
Variable default_headers : gmap string string.
Variable BeautifulSoup : string -> list node.

Implicit Types (st : State NetSt) (self : loc) (kw : gmap string kwval).

Lemma sessions_kept_logged st evs :
  sessions_kept st (mkState (objects st) (sessions st) (net st) evs).
Proof. by split. Qed.

Lemma Application_request_keeps_sessions st self m b e kw r st' :
  Application_request transport self m b e kw st = (r, st') ->
  sessions_kept st st'.
Proof.
  unfold Application_request, getattr, Session_request. run_monad.
  destruct (attr st (VObj self) "s") as [s|]; simpl;
    [|intros [= <- <-]; apply sessions_kept_refl].
  destruct s as [a|l|l]; simpl;
    try (intros [= <- <-]; apply sessions_kept_logged).
  destruct (sessions st !! l) as [x|] eqn:Hx; simpl;
    [|intros [= <- <-]; apply sessions_kept_logged].
  destruct (transport _ _) as [[r0 jar] n]. intros [= <- <-].
  split; simpl; [apply length_insert|].
  intros l'. destruct (decide (l = l')) as [<-|Hne].
  - rewrite list_lookup_insert_eq by (by eapply lookup_lt_Some).
    transitivity (headers <$> Some x); [done|]. f_equal. symmetry. exact Hx.
  - by rewrite list_lookup_insert_ne.
Qed.

Lemma with_BASE_keeps_sessions st self m e kw r st' :
  (b ← get_BASE self; Application_request transport self m b e kw) st
    = (r, st') ->
  sessions_kept st st'.
Proof.
  run_monad.
  destruct (get_BASE self st) as [[b|ex] st1] eqn:Hb;
    apply get_BASE_pure in Hb as ->.
  - apply Application_request_keeps_sessions.
  - intros [= <- <-]. apply sessions_kept_refl.
Qed.

Lemma CAS_auth_keeps_sessions st self r st' :
  CAS_auth transport BeautifulSoup self st = (r, st') ->
  sessions_kept st st'.
Proof.
  unfold CAS_auth. run_monad. simpl.
  set (st_a := mkState (objects st) (sessions st) (net st)
                       (trace st ++ [EvAuth self])).
  assert (sessions_kept st st_a) as Ha by apply sessions_kept_logged.
  destruct (Application_get transport self LOGIN_ENDPOINT ∅ st_a)
    as [[page|ex] st1] eqn:Hget;
    apply with_BASE_keeps_sessions in Hget;
    pose proof (sessions_kept_trans _ _ _ Ha Hget) as H1;
    [|by intros [= <- <-]].
  destruct (contains SUCCESS_MARKER (text page)); [by intros [= <- <-]|].
  destruct (soup_find_form "fm1" (BeautifulSoup (text page))) as [form|];
    [|by intros [= <- <-]].
  destruct (getattr (VObj self) "username" st1) as [[u|ex] st2] eqn:Hu;
    apply getattr_pure in Hu as ->; [|by intros [= <- <-]].
  destruct (getattr (VObj self) "password" st1) as [[p|ex] st2] eqn:Hp;
    apply getattr_pure in Hp as ->; [|by intros [= <- <-]].
  destruct (node_attrs form !! "action") as [action|]; [|by intros [= <- <-]].
  match goal with
  | |- context [Application_post ?t ?s ?e ?k ?st] =>
      destruct (Application_post t s e k st) as [[resp|ex] st2] eqn:Hpost
  end;
    apply with_BASE_keeps_sessions in Hpost;
    pose proof (sessions_kept_trans _ _ _ H1 Hpost) as H2.
  - destruct (negb (contains SUCCESS_MARKER (text resp)));
      by intros [= <- <-].
  - by intros [= <- <-].
Qed.

(** X10: a request through a protected client, with whatever login it
    triggers, creates no object and no session, changes no attribute of
    any object and no header of any session, and only appends to the
    log. *)
Theorem protected_request_keeps_store_shape st self m b e kw r st' :
  ProtectedApplication_request transport BeautifulSoup self m b e kw st
    = (r, st') ->
  objects st' = objects st
  /\ length (sessions st') = length (sessions st)
  /\ (forall l, headers <$> sessions st' !! l = headers <$> sessions st !! l)
  /\ exists evs, trace st' = trace st ++ evs.
Proof.
  unfold ProtectedApplication_request. run_monad.
  destruct (Application_request transport self m b e kw st)
    as [[r1|ex] st1] eqn:H1.
  2:{ intros [= <- <-].
      pose proof (Application_request_keeps_sessions _ _ _ _ _ _ _ _ H1) as [? ?].
      apply Application_request_only in H1 as [Ho (d & Ht & _)]. eauto 10. }
  pose proof (Application_request_keeps_sessions _ _ _ _ _ _ _ _ H1) as Hk1.
  apply Application_request_only in H1 as [Ho1 (d1 & Ht1 & _)].
  destruct (negb (contains "cas.ucdavis" (url r1))).
  { intros [= <- <-]. destruct Hk1. eauto 10. }
  destruct (getattr (VObj self) "auth_service" st1) as [[a|ex] st2] eqn:Ha;
    apply getattr_pure in Ha as ->.
  2:{ intros [= <- <-]. destruct Hk1. eauto 10. }
  destruct (call_auth transport BeautifulSoup a st1) as [[[]|ex] st2] eqn:H2.
  - assert (sessions_kept st1 st2 /\ objects st2 = objects st1
            /\ exists d, trace st2 = trace st1 ++ d) as (Hk2 & Ho2 & d2 & Ht2).
    { revert H2. unfold call_auth. run_monad. simpl.
      destruct (isinstance st1 a cls_CAS); [|done].
      destruct a as [x|l|l]; try done. intros H.
      pose proof (CAS_auth_keeps_sessions _ _ _ _ H).
      apply CAS_auth_frame in H as [? (d & ? & _)]. eauto 10. }
    intros H3.
    pose proof (Application_request_keeps_sessions _ _ _ _ _ _ _ _ H3) as Hk3.
    apply Application_request_only in H3 as [Ho3 (d3 & Ht3 & _)].
    destruct (sessions_kept_trans _ _ _ (sessions_kept_trans _ _ _ Hk1 Hk2) Hk3).
    split; [congruence|]. split; [done|]. split; [done|].
    exists (d1 ++ d2 ++ d3). rewrite Ht3, Ht2, Ht1, <- !app_assoc. done.
  - intros [= <- <-].
    assert (sessions_kept st1 st2 /\ objects st2 = objects st1
            /\ exists d, trace st2 = trace st1 ++ d) as (Hk2 & Ho2 & d2 & Ht2).
    { revert H2. unfold call_auth. run_monad. simpl.
      destruct (isinstance st1 a cls_CAS).
      - destruct a as [x|l|l];
          try (intros [= _ <-]; split; [apply sessions_kept_refl|];
               split; [done|]; exists []; by rewrite app_nil_r).
        intros H. pose proof (CAS_auth_keeps_sessions _ _ _ _ H).
        apply CAS_auth_frame in H as [? (d & ? & _)]. eauto 10.
      - intros [= _ <-]. split; [apply sessions_kept_refl|].
        split; [done|]. exists []. by rewrite app_nil_r. }
    destruct (sessions_kept_trans _ _ _ Hk1 Hk2).
    split; [congruence|]. split; [done|]. split; [done|].
    exists (d1 ++ d2). rewrite Ht2, Ht1, <- !app_assoc. done.
Qed.

(** X11: a protected client built with a true username and a true
    password, on a [shared_app] that is no protected client, gets an
    authentication service that is a [CAS] instance, holds the very
    session reference of the client, and keeps exactly the credentials
    passed. *)
Theorem credentials_build_auth_service st c u p sh self st' :
  valid_value st sh = true ->
  issubclass c cls_ProtectedApplication = true ->
  truthy u && truthy p = true ->
  isinstance st sh cls_ProtectedApplication = false ->
  ProtectedApplication_new default_headers c u p sh st = (Ok self, st') ->
  exists a s,
    attr st' (VObj self) "auth_service" = Some (VObj a)
    /\ isinstance st' (VObj a) cls_CAS = true
    /\ attr st' (VObj self) "s" = Some s
    /\ attr st' (VObj a) "s" = Some s
    /\ attr st' (VObj a) "username" = Some u
    /\ attr st' (VObj a) "password" = Some p.
Proof.
  intros Hv Hc Hcred Hi.
  unfold ProtectedApplication_new, ProtectedApplication_init, new_object.
  run_monad. fold (allocated st c). rewrite Hcred.
  destruct (Application_init default_headers (length (objects st)) sh
              (allocated st c)) as [[[]|ex] st1] eqn:Hinit; [|done].
  apply Application_init_new_object in Hinit as (stS & s & ->); [|done].
  simpl.
  assert (isinstance (with_session st stS c s) sh cls_ProtectedApplication
          = false) as ->.
  { revert Hv Hi. destruct sh as [x|l|l]; simpl; try done.
    rewrite bool_decide_eq_true. intros Hl. by rewrite !lookup_app_l. }
  simpl. unfold CAS_new, CAS_init, new_object. run_monad.
  set (st1 := with_session st stS c s).
  fold (allocated st1 cls_CAS).
  assert (length (objects st1) = S (length (objects st))) as Hlen.
  { unfold st1, with_session. simpl. rewrite length_app. simpl. lia. }
  rewrite (Application_init_shared default_headers st1 cls_CAS
             (VObj (length (objects st))) s).
  2:{ unfold valid_value. apply bool_decide_eq_true. rewrite Hlen. lia. }
  2:{ done. }
  2:{ unfold st1, with_session, isinstance. cbn [objects].
      rewrite lookup_last. simpl. by apply Protected_is_Application. }
  2:{ unfold st1, with_session. rewrite attr_new_object. simpl.
      apply lookup_singleton_eq. }
  unfold setattr, modify, with_session. cbn [objects sessions net trace].
  rewrite !alter_last. cbn [ob_class ob_attrs].
  unfold st1 at 1 2 3 4, with_session. cbn [objects].
  rewrite <- app_assoc. cbn [app].
  rewrite alter_middle. cbn [ob_class ob_attrs].
  intros [= <- <-].
  exists (length (objects st1)), s. rewrite Hlen.
  unfold attr, isinstance. cbn [objects].
  rewrite !lookup_after_middle.
  rewrite !(list_lookup_middle _ _ _ (length (objects st))) by done.
  cbn [mbind option_bind ob_class ob_attrs].
  split.
  { rewrite lookup_insert_eq. do 2 f_equal. rewrite length_app. simpl. lia. }
  split; [done|].
  split; [by rewrite lookup_insert_ne, lookup_singleton_eq|].
  split; [by rewrite !lookup_insert_ne, lookup_singleton_eq|].
  split; [by rewrite lookup_insert_ne, lookup_insert_eq|].
  apply lookup_insert_eq.
Qed.

(** X12: [get] and [post] on an instance whose class defines no [BASE]
    (as [Application] and [ProtectedApplication] themselves) raise
    [AttributeError] before anything is sent: the store is untouched. A
    subclass that sets [BASE] is not affected. *)
Theorem get_and_post_need_BASE st self o e kw :
  objects st !! self = Some o ->
  class_BASE (ob_class o) = None ->
  get transport BeautifulSoup self e kw st = (Raise (AttributeError "BASE"), st)
  /\ post transport BeautifulSoup self e kw st
     = (Raise (AttributeError "BASE"), st)
  /\ class_BASE cls_Application = None
  /\ class_BASE cls_ProtectedApplication = None
  /\ forall n p b, class_BASE (Sub n p (Some b)) = Some b.
Proof.
  intros Ho Hb. unfold get, post, get_BASE. run_monad. rewrite Ho, Hb. done.
Qed.

(** X13: when the login page lacks the success marker and either has no
    form [fm1] or has one without an [action], [auth] raises
    ([AttributeError] on the missing form, [KeyError] on the missing
    action) right after the GET: nothing is posted. *)
Theorem auth_fails_on_malformed_login_page
    st self o base l x page jar n u p :
  objects st !! self = Some o ->
  class_BASE (ob_class o) = Some base ->
  ob_attrs o !! "s" = Some (VSess l) ->
  ob_attrs o !! "username" = Some u ->
  ob_attrs o !! "password" = Some p ->
  sessions st !! l = Some x ->
  transport (net st)
    (mkSent "get" (base +:+ LOGIN_ENDPOINT) ∅ (headers x) (cookies x))
    = (Ok page, jar, n) ->
  contains SUCCESS_MARKER (text page) = false ->
  match soup_find_form "fm1" (BeautifulSoup (text page)) with
  | None => True
  | Some form => node_attrs form !! "action" = None
  end ->
  let st' :=
    exchanged st l x jar n
      [EvAuth self; EvRequest self "get" (base +:+ LOGIN_ENDPOINT) ∅] in
  CAS_auth transport BeautifulSoup self st
    = (Raise match soup_find_form "fm1" (BeautifulSoup (text page)) with
             | None => AttributeError "find_all"
             | Some _ => KeyError "action"
             end, st')
  /\ count_posts (new_events st st') = 0.
Proof.
  intros Ho Hb Hs Hu Hp Hx Hget Hmark Hform st'. split.
  - unfold CAS_auth, Application_get. run_monad. simpl.
    erewrite get_BASE_run by eauto.
    erewrite Application_request_run; [|by erewrite attr_of_object|done].
    simpl. rewrite Hget, Hmark. unfold st', exchanged. simpl.
    rewrite <- app_assoc. simpl.
    destruct (soup_find_form "fm1" (BeautifulSoup (text page))) as [form|];
      [|done].
    unfold getattr.
    rewrite (attr_of_object _ self o) by done. rewrite Hu. simpl.
    rewrite (attr_of_object _ self o) by done. rewrite Hp, Hform. done.
  - unfold st', exchanged, new_events. cbn [trace].
    by rewrite drop_app_length.
Qed.

(** X14: a transport failure of the login page's GET leaves [auth]
    through the same exception, after that single attempt and without a
    POST; the session keeps its headers and holds the jar the failed
    exchange left. *)
Theorem auth_propagates_transport_failure
    st self o base l x ex jar n :
  objects st !! self = Some o ->
  class_BASE (ob_class o) = Some base ->
  ob_attrs o !! "s" = Some (VSess l) ->
  sessions st !! l = Some x ->
  transport (net st)
    (mkSent "get" (base +:+ LOGIN_ENDPOINT) ∅ (headers x) (cookies x))
    = (Raise ex, jar, n) ->
  let st' :=
    exchanged st l x jar n
      [EvAuth self; EvRequest self "get" (base +:+ LOGIN_ENDPOINT) ∅] in
  CAS_auth transport BeautifulSoup self st = (Raise ex, st')
  /\ count_posts (new_events st st') = 0.
Proof.
  intros Ho Hb Hs Hx Hget st'. split.
  - unfold CAS_auth, Application_get. run_monad. simpl.
    erewrite get_BASE_run by eauto.
    erewrite Application_request_run; [|by erewrite attr_of_object|done].
    simpl. rewrite Hget. unfold st', exchanged. simpl.
    by rewrite <- app_assoc.
  - unfold st', exchanged, new_events. cbn [trace].
    by rewrite drop_app_length.
Qed.

(** X15: the cookies obtained by the login reach the retried request.
    When a protected client and its authentication service hold the
    same session, the first response comes from the authentication
    domain and the login succeeds, the four exchanges are chained on
    the one cookie jar: the login page is fetched with the jar the
    redirected request left, the form is posted with the jar of that
    GET, and the original request is repeated with the jar of the POST;
    its outcome is the result. *)
Theorem login_cookies_reach_the_retry
    st self o a oa cas_base l x m b e kw u p
    r1 jar1 n1 page jar2 n2 form action r3 jar3 n3 r4 jar4 n4 :
  objects st !! self = Some o ->
  ob_attrs o !! "s" = Some (VSess l) ->
  ob_attrs o !! "auth_service" = Some (VObj a) ->
  objects st !! a = Some oa ->
  issubclass (ob_class oa) cls_CAS = true ->
  class_BASE (ob_class oa) = Some cas_base ->
  ob_attrs oa !! "s" = Some (VSess l) ->
  ob_attrs oa !! "username" = Some u ->
  ob_attrs oa !! "password" = Some p ->
  sessions st !! l = Some x ->
  transport (net st) (mkSent m (b +:+ e) kw (headers x) (cookies x))
    = (Ok r1, jar1, n1) ->
  contains "cas.ucdavis" (url r1) = true ->
  transport n1
    (mkSent "get" (cas_base +:+ LOGIN_ENDPOINT) ∅ (headers x) jar1)
    = (Ok page, jar2, n2) ->
  contains SUCCESS_MARKER (text page) = false ->
  soup_find_form "fm1" (BeautifulSoup (text page)) = Some form ->
  node_attrs form !! "action" = Some action ->
  let data : gmap string value :=
    <["password" := p]>
      (<["username" := u]> (collect_fields (find_all_tags form))) in
  let login : gmap string kwval := {[ "data" := KwDict data ]} in
  transport n2 (mkSent "post" (cas_base +:+ action) login (headers x) jar2)
    = (Ok r3, jar3, n3) ->
  contains SUCCESS_MARKER (text r3) = true ->
  transport n3 (mkSent m (b +:+ e) kw (headers x) jar3) = (r4, jar4, n4) ->
  ProtectedApplication_request transport BeautifulSoup self m b e kw st
  = (r4,
     exchanged st l x jar4 n4
       [EvRequest self m (b +:+ e) kw;
        EvAuth a;
        EvRequest a "get" (cas_base +:+ LOGIN_ENDPOINT) ∅;
        EvRequest a "post" (cas_base +:+ action) login;
        EvRequest self m (b +:+ e) kw]).
Proof.
  intros Ho Hs Hauth Hoa Hcas Hbase Hsa Hu Hp Hx H1 Hurl H2 Hmark Hform Hact
    data login H3 Hok H4.
  assert (l < length (sessions st)) as Hl by (by eapply lookup_lt_Some).
  unfold ProtectedApplication_request. run_monad.
  rewrite (Application_request_run transport st self m b e kw l x);
    [|by rewrite (attr_of_object st self o)|done].
  rewrite H1, Hurl. cbn [negb]. unfold getattr.
  rewrite (attr_of_object _ self o) by done. rewrite Hauth.
  unfold call_auth. run_monad. cbn [isinstance exchanged objects].
  rewrite Hoa, Hcas.
  unfold CAS_auth, Application_get, Application_post. run_monad.
  unfold modify. cbn [objects sessions net trace exchanged].
  erewrite get_BASE_run by (cbn [objects]; eauto).
  erewrite (Application_request_run _ _ a "get" _ _ _ l (mkSession (headers x) jar1));
    [|by rewrite (attr_of_object _ a oa)|cbn [sessions exchanged]; apply list_lookup_insert_eq;
      cbn [sessions exchanged]; rewrite ?length_insert; exact Hl].
  cbn [objects sessions net trace headers cookies exchanged].
  rewrite H2, Hmark, Hform. unfold getattr.
  rewrite (attr_of_object _ a oa) by done. rewrite Hu.
  rewrite (attr_of_object _ a oa) by done. rewrite Hp, Hact.
  erewrite get_BASE_run by (cbn [objects]; eauto).
  erewrite (Application_request_run _ _ a "post" _ _ _ l (mkSession (headers x) jar2));
    [|by rewrite (attr_of_object _ a oa)
     |cbn [sessions exchanged]; apply list_lookup_insert_eq;
      cbn [sessions exchanged]; rewrite ?length_insert; exact Hl].
  cbn [objects sessions net trace headers cookies exchanged].
  fold data. fold login. rewrite H3, Hok. cbn [negb].
  erewrite (Application_request_run _ _ self m b e kw l (mkSession (headers x) jar3));
    [|by rewrite (attr_of_object _ self o)
     |cbn [sessions exchanged]; apply list_lookup_insert_eq;
      cbn [sessions exchanged]; rewrite ?length_insert; exact Hl].
  cbn [objects sessions net trace headers cookies exchanged].
  rewrite H4. unfold exchanged. cbn [objects sessions net trace headers].
  rewrite !list_insert_insert_eq, <- !app_assoc. done.
Qed.

End MoreProperties.

(** ** Further runs of the simulated deployment *)

Lemma Course_init_stores_attributes_witness :
  exists c,
    Course.init (AInt 74382) Sim.fall_2014 (Sim.attrs_of "a") = Ok c
    /\ Course.getattr c "crn" = Ok (Course.AtomAttr (AInt 74382))
    /\ Course.getattr c "term" = Ok (Course.TermAttr Sim.fall_2014).
Proof.
  destruct (Course.init (AInt 74382) Sim.fall_2014 (Sim.attrs_of "a"))
    as [c|ex] eqn:Hinit; [|vm_compute in Hinit; discriminate].
  exists c. split; [reflexivity|].
  destruct (Course_init_stores_attributes _ _ _ _ Hinit) as (H1 & H2 & _).
  split; [exact H1 | exact H2].
Defined.

Lemma protected_request_keeps_store_shape_witness :
  let st := Sim.after_login_client "alice" "secret" in
  let run :=
    ProtectedApplication_request Sim.transport Sim.parser 0
      "get" Sim.site "/courses" ∅ st in
  objects (snd run) = objects st
  /\ length (sessions (snd run)) = length (sessions st).
Proof.
  cbv zeta.
  destruct (protected_request_keeps_store_shape Sim.transport Sim.parser
              (Sim.after_login_client "alice" "secret") 0
              "get" Sim.site "/courses" ∅ _ _ (surjective_pairing _))
    as (Ho & Hl & _).
  split; [exact Ho | exact Hl].
Defined.

Lemma credentials_build_auth_service_witness :
  exists a s,
    attr (Sim.after_login_client "alice" "secret") (VObj 0) "auth_service"
      = Some (VObj a)
    /\ attr (Sim.after_login_client "alice" "secret") (VObj 0) "s" = Some s
    /\ attr (Sim.after_login_client "alice" "secret") (VObj a) "s" = Some s
    /\ attr (Sim.after_login_client "alice" "secret") (VObj a) "username"
       = Some (Sim.str "alice").
Proof.
  unshelve epose proof
    (credentials_build_auth_service Sim.default_headers Sim.st0
       cls_ProtectedApplication (Sim.str "alice") (Sim.str "secret") Sim.none
       0 (Sim.after_login_client "alice" "secret") _ _ _ _ _)
    as (a & s & H1 & _ & H3 & H4 & H5 & _);
    [vm_compute; reflexivity .. |].
  exists a, s. repeat split; assumption.
Defined.

Lemma get_and_post_need_BASE_witness :
  get Sim.transport Sim.parser 0 "/courses" ∅ Sim.after_plain_client
  = (Raise (AttributeError "BASE"), Sim.after_plain_client).
Proof.
  unshelve epose proof
    (get_and_post_need_BASE Sim.transport Sim.parser Sim.after_plain_client 0
       (Sim.object_at Sim.after_plain_client 0) "/courses" ∅ _ _)
    as (H & _);
    [vm_compute; reflexivity .. |].
  exact H.
Defined.

Lemma auth_fails_on_malformed_login_page_witness :
  let st := Sim.after_login_client "alice" "secret" in
  fst (CAS_auth Sim.transport_maintenance Sim.parser 1 st)
  = Raise (AttributeError "find_all").
Proof.
  cbv zeta.
  unshelve epose proof
    (auth_fails_on_malformed_login_page Sim.transport_maintenance Sim.parser
       (Sim.after_login_client "alice" "secret") 1
       (Sim.object_at (Sim.after_login_client "alice" "secret") 1)
       "https://cas.ucdavis.edu" 0
       (Sim.session_at (Sim.after_login_client "alice" "secret") 0)
       (mkResponse Sim.login_url Sim.maintenance_page) ∅ 1
       (Sim.str "alice") (Sim.str "secret") _ _ _ _ _ _ _ _ _) as H;
    [vm_compute; try reflexivity; exact I .. |].
  cbv zeta in H. destruct H as [Hrun _]. rewrite Hrun. reflexivity.
Defined.

Lemma auth_propagates_transport_failure_witness :
  let st := Sim.after_login_client "alice" "secret" in
  fst (CAS_auth Sim.transport_down Sim.parser 1 st)
  = Raise (TransportError "connection refused").
Proof.
  cbv zeta.
  unshelve epose proof
    (auth_propagates_transport_failure Sim.transport_down Sim.parser
       (Sim.after_login_client "alice" "secret") 1
       (Sim.object_at (Sim.after_login_client "alice" "secret") 1)
       "https://cas.ucdavis.edu" 0
       (Sim.session_at (Sim.after_login_client "alice" "secret") 0)
       (TransportError "connection refused") ∅ 1 _ _ _ _ _) as H;
    [vm_compute; reflexivity .. |].
  cbv zeta in H. destruct H as [Hrun _]. rewrite Hrun. reflexivity.
Defined.

Lemma login_cookies_reach_the_retry_witness :
  let st := Sim.after_login_client "alice" "secret" in
  let run :=
    ProtectedApplication_request Sim.transport Sim.parser 0
      "get" Sim.site "/courses" ∅ st in
  fst run = Ok (mkResponse (Sim.site +:+ "/courses") "courses")
  /\ sessions (snd run)
     = [mkSession (headers (Sim.session_at st 0)) Sim.ticket_jar].
Proof.
  cbv zeta.
  unshelve epose proof
    (login_cookies_reach_the_retry Sim.transport Sim.parser
       (Sim.after_login_client "alice" "secret") 0
       (Sim.object_at (Sim.after_login_client "alice" "secret") 0) 1
       (Sim.object_at (Sim.after_login_client "alice" "secret") 1)
       "https://cas.ucdavis.edu" 0
       (Sim.session_at (Sim.after_login_client "alice" "secret") 0)
       "get" Sim.site "/courses" ∅ (Sim.str "alice") (Sim.str "secret")
       (mkResponse Sim.login_url Sim.login_page) ∅ 1
       (mkResponse Sim.login_url Sim.login_page) ∅ 2
       Sim.login_form "/cas/login"
       (mkResponse Sim.login_url Sim.success_page) Sim.ticket_jar 3
       (Ok (mkResponse (Sim.site +:+ "/courses") "courses")) Sim.ticket_jar 4
       _ _ _ _ _ _ _ _ _ _ _ _ _ _ _ _ _ _ _) as H;
    [vm_compute; reflexivity .. |].
  rewrite H. split; [reflexivity | vm_compute; reflexivity].
Defined.
